(** * pipeline.py: DatasetMapper and Pipeline

    A shallow embedding of [src/pipeline.py].  Python objects are records,
    keyword dictionaries are records of optional fields, exceptions are
    values of [exn], and a statement sequence that mutates objects is a
    function on an explicit state.  The tensor framework, the autograd
    engine, the optimizer rule, the data loader and the clock are opaque
    collaborators, bundled in [Tensors] and [Framework].  The constructor
    of the optimizer and the methods [get_lr] and [step] of a scheduler
    the caller passes may raise; the numeric work of a batch and the
    functions the caller passes (losses, scores, [step_size_func]) are
    functions that return. *)

From Stdlib Require Import ZArith QArith Qround List String Ascii Bool Lia Sorted.
Import ListNotations.

Local Open Scope Z_scope.

(** ** Python prelude: exceptions and fallible results *)

Inductive exn : Type :=
| TypeError (msg : string)
| AssertionError (msg : string)
| AttributeError (msg : string)
| IndexError (msg : string)
| ZeroDivisionError (msg : string)
| UnboundLocalError (msg : string)
| FileNotFoundError (msg : string)
| ValueError (msg : string).

Inductive result (A : Type) : Type :=
| Ok (a : A)
| Raise (e : exn).

Arguments Ok {A} a.
Arguments Raise {A} e.

Definition bind {A B : Type} (r : result A) (k : A -> result B) : result B :=
  match r with
  | Ok a => k a
  | Raise e => Raise e
  end.

Declare Scope py_scope.
Delimit Scope py_scope with py.
Notation "x <- c ;; k" := (bind c (fun x => k))
  (at level 100, c at next level, right associativity) : py_scope.

(** [range(n)] for a Python int [n]: empty when [n <= 0]. *)
Definition py_range (n : Z) : list Z := map Z.of_nat (seq 0 (Z.to_nat n)).

(** ** os.path.join (posixpath, two components) *)

Module PosixPath.

Definition sep : ascii := "/"%char.

Definition startswith_sep (b : string) : bool :=
  match b with
  | String c _ => Ascii.eqb c sep
  | EmptyString => false
  end.

Fixpoint endswith_sep (a : string) : bool :=
  match a with
  | EmptyString => false
  | String c EmptyString => Ascii.eqb c sep
  | String _ rest => endswith_sep rest
  end.

Definition is_empty (a : string) : bool :=
  match a with
  | EmptyString => true
  | String _ _ => false
  end.

(** [if b.startswith(sep): path = b
     elif not path or path.endswith(sep): path += b
     else: path += sep + b] *)
Definition join (a b : string) : string :=
  if startswith_sep b then b
  else if is_empty a || endswith_sep a then (a ++ b)%string
  else (a ++ String sep b)%string.

End PosixPath.

(** ** The tensor types the code handles but never inspects *)

Record Tensors : Type := {
  Image : Type;   (* one processed image, as [preprocessor.get] returns it *)
  Label : Type;   (* one label or feature vector *)
  Pred : Type;    (* one row of the model's output *)
  Loss : Type;    (* a scalar loss *)
  Score : Type;   (* a scalar score *)
  Grad : Type;    (* the gradients [loss.backward()] leaves on the parameters *)
  Params : Type;  (* the model's parameters, its [state_dict] *)
  OptState : Type (* the optimizer's internal state *)
}.

(** ** DatasetMapper *)

Section DatasetMapperModel.

Variable T : Tensors.

(** The frame [pd.read_csv] returns: column 0 is the image name, column 1
    the label. *)
Definition Table : Type := list (string * Label T).

(** The file system seen by [pd.read_csv]: [None] for a missing file. *)
Definition FileSystem : Type := string -> option Table.

(** [preprocessor.get] *)
Definition Preprocessor : Type := string -> Image T.

Definition Teacher : Type := Image T -> Label T.

Record DatasetMapper : Type := {
  dm_root_dir : string;
  dm_image_data_file : Table;
  dm_preprocessor : Preprocessor;
  dm_teacher_func : option Teacher
}.

Definition read_csv (fs : FileSystem) (path : string) : result Table :=
  match fs path with
  | Some t => Ok t
  | None => Raise (FileNotFoundError path)
  end.

(** [DatasetMapper(root_dir, image_data_file, preprocessor, teacher_func)].
    The signature is
    [def __init__(self, root_dir, image_data_file, preprocessor, teacher_func: None)]:
    [None] annotates [teacher_func], it is not a default value, so the
    fourth argument is required.  [teacher_func] is [None] here when the call
    site passes no fourth argument, and [Some t] when it passes [t] (which
    may itself be Python's [None], that is [Some None]). *)
Definition DatasetMapper_init (fs : FileSystem)
    (root_dir image_data_file : string) (preprocessor : Preprocessor)
    (teacher_func : option (option Teacher)) : result DatasetMapper :=
  match teacher_func with
  | None =>
      Raise (TypeError
        "__init__() missing 1 required positional argument: 'teacher_func'")
  | Some teacher =>
      (table <- read_csv fs image_data_file ;;
       Ok {| dm_root_dir := root_dir;
             dm_image_data_file := table;
             dm_preprocessor := preprocessor;
             dm_teacher_func := teacher |})%py
  end.

(** [__len__]: [self.image_data_file.shape[0]] *)
Definition DatasetMapper_len (dm : DatasetMapper) : Z :=
  Z.of_nat (List.length (dm_image_data_file dm)).

(** An index as [__getitem__] receives it: a Python int or an integer
    tensor. *)
Inductive Index : Type :=
| PyInt (i : Z)
| TensorInt (i : Z).

(** [if torch.is_tensor(idx): idx = idx.tolist()] *)
Definition to_python_int (idx : Index) : Z :=
  match idx with
  | PyInt i => i
  | TensorInt i => i
  end.

(** Row selection of [DataFrame.iloc]: positions [-n .. n-1] are valid, a
    negative one counts from the end, anything else raises. *)
Definition iloc (t : Table) (i : Z) : result (string * Label T) :=
  let n := Z.of_nat (List.length t) in
  let pos := if i <? 0 then i + n else i in
  if (0 <=? pos) && (pos <? n) then
    match nth_error t (Z.to_nat pos) with
    | Some row => Ok row
    | None => Raise (IndexError "single positional indexer is out-of-bounds")
    end
  else Raise (IndexError "single positional indexer is out-of-bounds").

Definition DatasetMapper_getitem (dm : DatasetMapper) (idx : Index)
  : result (Image T * Label T) :=
  let idx := to_python_int idx in
  (row0 <- iloc (dm_image_data_file dm) idx ;;
   let img_name := PosixPath.join (dm_root_dir dm) (fst row0) in
   let image := dm_preprocessor dm img_name in
   match dm_teacher_func dm with
   | Some teacher_func => Ok (image, teacher_func image)
   | None =>
       row1 <- iloc (dm_image_data_file dm) idx ;;
       Ok (image, snd row1)
   end)%py.

End DatasetMapperModel.

Arguments dm_root_dir {T} _.
Arguments dm_image_data_file {T} _.
Arguments dm_preprocessor {T} _.
Arguments dm_teacher_func {T} _.
Arguments DatasetMapper_init {T} fs root_dir image_data_file preprocessor teacher_func.
Arguments DatasetMapper_len {T} dm.
Arguments DatasetMapper_getitem {T} dm idx.
Arguments iloc {T} t i.

(** ** The framework the pipeline drives *)

Inductive device : Type := cuda | cpu.

(** A batch as a loader yields it: the stacked inputs and the stacked
    labels, row by row ([list(tensor.numpy())] gives these rows). *)
Definition Batch (T : Tensors) : Type := (list (Image T) * list (Label T))%type.

(** An optimizer class: the exception its constructor raises on the given
    parameters and rate, if it rejects them; the state it initialises from
    the parameters otherwise; and what one [step()] does at a given
    learning rate. *)
Record Optim (T : Tensors) : Type := {
  opt_raises : Params T -> Q -> option exn;
  opt_init : Params T -> OptState T;
  opt_update : Q -> OptState T -> Params T -> Grad T -> Params T * OptState T
}.

Arguments opt_raises {T} _ _ _.
Arguments opt_init {T} _ _.
Arguments opt_update {T} _ _ _ _ _.

Record Framework (T : Tensors) : Type := {
  Loader : Type;           (* a [DataLoader] *)
  Args : Type;             (* the [**kwargs] forwarded to the model constructor *)
  CustomScheduler : Type;  (* a scheduler instance built by the caller *)
  (* [x.type(torch.LongTensor).to(device)], [y.type(torch.FloatTensor).to(device)] *)
  as_long : list (Image T) -> list (Image T);
  as_float : list (Label T) -> list (Label T);
  (* [self.model(x)]: parameters, training flag, inputs *)
  forward : Params T -> bool -> list (Image T) -> list (Pred T);
  (* [loss.backward()]: the gradients of the loss at the parameters *)
  backward : Params T -> bool -> list (Image T) -> list (Label T) -> Loss T -> Grad T;
  (* [DataLoader(dataset, batch_size=, num_workers=, shuffle=)] *)
  DataLoader : DatasetMapper T -> Z -> Z -> bool -> Loader;
  (* the batches one pass over a loader yields; the pass is named by the
     epoch that makes it, which stands for the state of the shuffling *)
  load_batches : Loader -> Z -> list (Batch T);
  Adam : Optim T;          (* [optim.Adam] *)
  (* [get_lr()] and [step()] of a caller's scheduler: either may raise *)
  custom_get_lr : CustomScheduler -> result (list Q);
  custom_step : CustomScheduler -> result CustomScheduler;
  cuda_is_available : bool;
  now : string             (* [datetime.now().strftime("%Y%m%d-%H%M%S")] *)
}.

Arguments Loader {T} _.
Arguments Args {T} _.
Arguments CustomScheduler {T} _.
Arguments as_long {T} _ _.
Arguments as_float {T} _ _.
Arguments forward {T} _ _ _ _.
Arguments backward {T} _ _ _ _ _ _.
Arguments DataLoader {T} _ _ _ _ _.
Arguments load_batches {T} _ _ _.
Arguments Adam {T} _.
Arguments custom_get_lr {T} _ _.
Arguments custom_step {T} _ _.
Arguments cuda_is_available {T} _.
Arguments now {T} _.

Set Implicit Arguments.

Section PipelineModel.

Variable T : Tensors.
Variable F : Framework T.

(** *** Objects *)

Record Model : Type := {
  m_params : Params T;
  m_training : bool;           (* set by [model.train()] / [model.eval()] *)
  m_device : option device     (* set by [model.to(device)] *)
}.

Inductive Scalar : Type :=
| LossValue (l : Loss T)
| ScoreValue (s : Score T).

Record SummaryWriter : Type := {
  sw_logdir : string;
  sw_scalars : list (string * Scalar)
}.

Definition add_scalar (w : SummaryWriter) (tag : string) (v : Scalar)
  : SummaryWriter :=
  {| sw_logdir := sw_logdir w; sw_scalars := sw_scalars w ++ [(tag, v)] |}.

Record Pipeline : Type := {
  p_name : string;
  p_model : Model;
  p_batch_size : Z;
  p_root_dir : string;
  p_image_data_file : string;
  p_preprocessor : Preprocessor T;
  p_args : Args F;
  p_device : device;
  p_train_loader : Loader F;
  p_test_loader : Loader F;
  p_train_writer : SummaryWriter;
  p_valid_writer : SummaryWriter;
  p_epochs : option Z          (* absent until [train] sets it *)
}.

Definition set_model (p : Pipeline) (m : Model) : Pipeline :=
  {| p_name := p_name p; p_model := m; p_batch_size := p_batch_size p;
     p_root_dir := p_root_dir p; p_image_data_file := p_image_data_file p;
     p_preprocessor := p_preprocessor p; p_args := p_args p;
     p_device := p_device p; p_train_loader := p_train_loader p;
     p_test_loader := p_test_loader p; p_train_writer := p_train_writer p;
     p_valid_writer := p_valid_writer p; p_epochs := p_epochs p |}.

Definition set_train_writer (p : Pipeline) (w : SummaryWriter) : Pipeline :=
  {| p_name := p_name p; p_model := p_model p; p_batch_size := p_batch_size p;
     p_root_dir := p_root_dir p; p_image_data_file := p_image_data_file p;
     p_preprocessor := p_preprocessor p; p_args := p_args p;
     p_device := p_device p; p_train_loader := p_train_loader p;
     p_test_loader := p_test_loader p; p_train_writer := w;
     p_valid_writer := p_valid_writer p; p_epochs := p_epochs p |}.

Definition set_valid_writer (p : Pipeline) (w : SummaryWriter) : Pipeline :=
  {| p_name := p_name p; p_model := p_model p; p_batch_size := p_batch_size p;
     p_root_dir := p_root_dir p; p_image_data_file := p_image_data_file p;
     p_preprocessor := p_preprocessor p; p_args := p_args p;
     p_device := p_device p; p_train_loader := p_train_loader p;
     p_test_loader := p_test_loader p; p_train_writer := p_train_writer p;
     p_valid_writer := w; p_epochs := p_epochs p |}.

Definition set_epochs (p : Pipeline) (n : Z) : Pipeline :=
  {| p_name := p_name p; p_model := p_model p; p_batch_size := p_batch_size p;
     p_root_dir := p_root_dir p; p_image_data_file := p_image_data_file p;
     p_preprocessor := p_preprocessor p; p_args := p_args p;
     p_device := p_device p; p_train_loader := p_train_loader p;
     p_test_loader := p_test_loader p; p_train_writer := p_train_writer p;
     p_valid_writer := p_valid_writer p; p_epochs := Some n |}.

(** *** Pipeline.__init__ *)

Definition Pipeline_init (fs : FileSystem T)
    (name : string) (model : Args F -> Params T) (batch_size : Z)
    (root_dir image_data_file : string) (preprocessor : Preprocessor T)
    (kwargs : Args F) : result Pipeline :=
  let self_name := (name ++ "_" ++ now F)%string in
  (* self.model = model of the keyword arguments; a new module is in
     training mode *)
  let self_model :=
    {| m_params := model kwargs; m_training := true; m_device := None |} in
  let self_device := if cuda_is_available F then cuda else cpu in
  (* self.model.to(self.device) *)
  let self_model :=
    {| m_params := m_params self_model; m_training := m_training self_model;
       m_device := Some self_device |} in
  (* DatasetMapper(root_dir, image_data_file, self.preprocessor): three
     arguments, none for [teacher_func] *)
  (train_set <- DatasetMapper_init fs root_dir image_data_file preprocessor None ;;
   test_set <- DatasetMapper_init fs root_dir image_data_file preprocessor None ;;
   let train_loader := DataLoader F train_set batch_size 0 true in
   let test_loader := DataLoader F test_set batch_size 0 false in
   Ok {| p_name := self_name; p_model := self_model;
         p_batch_size := batch_size; p_root_dir := root_dir;
         p_image_data_file := image_data_file;
         p_preprocessor := preprocessor; p_args := kwargs;
         p_device := self_device;
         p_train_loader := train_loader; p_test_loader := test_loader;
         p_train_writer :=
           {| sw_logdir := ("logs/fit/" ++ self_name ++ "/train")%string;
              sw_scalars := [] |};
         p_valid_writer :=
           {| sw_logdir := ("logs/fit/" ++ self_name ++ "/validation")%string;
              sw_scalars := [] |};
         p_epochs := None |})%py.

(** *** Optimizer and learning-rate scheduler *)

(** An optimizer instance with its single parameter group: the group's
    [lr], its [initial_lr] once a scheduler has recorded it, and the
    optimizer's internal state. *)
Record Optimizer : Type := {
  o_rule : Optim T;
  o_lr : Q;
  o_initial_lr : option Q;
  o_state : OptState T
}.

(** The optimizer [cls(self.model.parameters(), lr=lr)] builds when it
    returns. *)
Definition new_optimizer (cls : Optim T) (params : Params T) (lr : Q)
  : Optimizer :=
  {| o_rule := cls; o_lr := lr; o_initial_lr := None;
     o_state := opt_init cls params |}.

(** [cls(self.model.parameters(), lr=lr)]: the class may reject its
    arguments. *)
Definition construct_optimizer (cls : Optim T) (params : Params T) (lr : Q)
  : result Optimizer :=
  match opt_raises cls params lr with
  | Some e => Raise e
  | None => Ok (new_optimizer cls params lr)
  end.

Definition set_lr (o : Optimizer) (lr : Q) : Optimizer :=
  {| o_rule := o_rule o; o_lr := lr; o_initial_lr := o_initial_lr o;
     o_state := o_state o |}.

Definition set_opt_state (o : Optimizer) (s : OptState T) : Optimizer :=
  {| o_rule := o_rule o; o_lr := o_lr o; o_initial_lr := o_initial_lr o;
     o_state := s |}.

(** A scheduler: either an instance the caller built (bound to whatever
    optimizer the caller gave it, never to the one [train] creates), or
    the framework's [LambdaLR] on [train]'s optimizer, which keeps the
    group's base rate, the factor function and the last epoch. *)
Inductive Scheduler : Type :=
| Custom (s : CustomScheduler F)
| LambdaLR (base_lr : Q) (lr_lambda : Z -> Q) (last_epoch : Z).

(** [optim.lr_scheduler.LambdaLR(optimizer, lr_lambda)]: the framework
    records the group's rate as [initial_lr] (if it has none yet), and
    performs the initial step, which sets the group's rate to
    [base_lr * lr_lambda(0)]. *)
Definition new_LambdaLR (o : Optimizer) (lr_lambda : Z -> Q)
  : Optimizer * Scheduler :=
  let base_lr := match o_initial_lr o with Some b => b | None => o_lr o end in
  ({| o_rule := o_rule o; o_lr := Qmult base_lr (lr_lambda 0);
      o_initial_lr := Some base_lr; o_state := o_state o |},
   LambdaLR base_lr lr_lambda 0).

(** [lr_scheduler.get_lr()]: for [LambdaLR], the rate of the last epoch. *)
Definition scheduler_get_lr (s : Scheduler) : result (list Q) :=
  match s with
  | Custom c => custom_get_lr F c
  | LambdaLR base_lr lr_lambda last_epoch =>
      Ok [Qmult base_lr (lr_lambda last_epoch)]
  end.

(** [lr_scheduler.step()]: for [LambdaLR], advance [last_epoch] and set
    the group's rate to [base_lr * lr_lambda(last_epoch)]; a caller's
    scheduler steps as it likes, or raises. *)
Definition scheduler_step (s : Scheduler) (o : Optimizer)
  : result (Optimizer * Scheduler) :=
  match s with
  | Custom c =>
      (c' <- custom_step F c ;; Ok (o, Custom c'))%py
  | LambdaLR base_lr lr_lambda last_epoch =>
      let e := last_epoch + 1 in
      Ok (set_lr o (Qmult base_lr (lr_lambda e)), LambdaLR base_lr lr_lambda e)
  end.

(** *** The keyword arguments of [train] *)

Definition LossFn : Type := list (Pred T) -> list (Label T) -> Loss T.

(** One entry of [score_functions]: [{"func": ..., "name": ...}] *)
Record ScoreFunc : Type := {
  sf_func : list (Label T) -> list (Pred T) -> Score T;
  sf_name : string
}.

(** [save_checkpoints]: [{"epoch": ..., "path": ...}] *)
Record CheckpointConfig : Type := {
  cc_epoch : Z;
  cc_path : string
}.

Record TrainKwargs : Type := {
  kw_num_epochs : option Z;
  kw_lr : option Q;
  kw_optim : option (Optim T);
  kw_lr_scheduler : option (CustomScheduler F);
  kw_step_size_func : option (Z -> Q);
  kw_loss_func : option LossFn;
  kw_loss_func_with_grad : option LossFn;
  kw_score_functions : option (list ScoreFunc);
  kw_save_checkpoints : option CheckpointConfig
}.

(** *** Logs and checkpoints *)

(** [{"epoch": epoch, "step": step, "loss": loss}] *)
Record ErrorEntry : Type := {
  e_epoch : Z;
  e_step : Z;
  e_loss : Loss T
}.

(** [{"epoch": epoch, "scores": [{name: score}, ...]}] *)
Record ScoreEntry : Type := {
  s_epoch : Z;
  s_scores : list (string * Score T)
}.

(** [{"errors": [], "scores": []}] *)
Record Log : Type := {
  errors : list ErrorEntry;
  scores : list ScoreEntry
}.

Definition empty_log : Log := {| errors := []; scores := [] |}.

(** [log["errors"].append(entry)] *)
Definition append_error (l : Log) (entry : ErrorEntry) : Log :=
  {| errors := errors l ++ [entry]; scores := scores l |}.

(** [log["scores"].append(entry)] *)
Definition append_scores (l : Log) (entry : ScoreEntry) : Log :=
  {| errors := errors l; scores := scores l ++ [entry] |}.

(** [log.append(entry)] on the dict itself: a dict has no such method. *)
Definition dict_append {A : Type} (l : Log) (entry : A) : result Log :=
  Raise (AttributeError "'dict' object has no attribute 'append'").

(** The bundle [torch.save] receives. *)
Record Checkpoint : Type := {
  ck_epoch : Z;
  ck_model_state_dict : Params T;
  ck_optimizer_state_dict : Q * OptState T;
  ck_loss : Loss T
}.

(** *** The state [train] works on: the pipeline object, the locals of
    [train], and the files [torch.save] has written, oldest first. *)

Record State : Type := {
  st_self : Pipeline;
  st_optimizer : Optimizer;
  st_lr_scheduler : Scheduler;
  st_training_log : Log;
  st_validation_log : Log;
  st_ys : list (Label T);
  st_y_preds : list (Pred T);
  st_loss : option (Loss T);   (* [None] while [loss] is unbound *)
  st_disk : list (string * Checkpoint)
}.

Definition set_self (st : State) (p : Pipeline) : State :=
  {| st_self := p; st_optimizer := st_optimizer st;
     st_lr_scheduler := st_lr_scheduler st;
     st_training_log := st_training_log st;
     st_validation_log := st_validation_log st;
     st_ys := st_ys st; st_y_preds := st_y_preds st;
     st_loss := st_loss st; st_disk := st_disk st |}.

Definition set_optimizer (st : State) (o : Optimizer) (s : Scheduler) : State :=
  {| st_self := st_self st; st_optimizer := o; st_lr_scheduler := s;
     st_training_log := st_training_log st;
     st_validation_log := st_validation_log st;
     st_ys := st_ys st; st_y_preds := st_y_preds st;
     st_loss := st_loss st; st_disk := st_disk st |}.

Definition set_training_log (st : State) (l : Log) : State :=
  {| st_self := st_self st; st_optimizer := st_optimizer st;
     st_lr_scheduler := st_lr_scheduler st;
     st_training_log := l;
     st_validation_log := st_validation_log st;
     st_ys := st_ys st; st_y_preds := st_y_preds st;
     st_loss := st_loss st; st_disk := st_disk st |}.

Definition set_validation_log (st : State) (l : Log) : State :=
  {| st_self := st_self st; st_optimizer := st_optimizer st;
     st_lr_scheduler := st_lr_scheduler st;
     st_training_log := st_training_log st;
     st_validation_log := l;
     st_ys := st_ys st; st_y_preds := st_y_preds st;
     st_loss := st_loss st; st_disk := st_disk st |}.

Definition set_accumulators (st : State) (ys : list (Label T))
    (y_preds : list (Pred T)) : State :=
  {| st_self := st_self st; st_optimizer := st_optimizer st;
     st_lr_scheduler := st_lr_scheduler st;
     st_training_log := st_training_log st;
     st_validation_log := st_validation_log st;
     st_ys := ys; st_y_preds := y_preds;
     st_loss := st_loss st; st_disk := st_disk st |}.

Definition set_loss (st : State) (l : Loss T) : State :=
  {| st_self := st_self st; st_optimizer := st_optimizer st;
     st_lr_scheduler := st_lr_scheduler st;
     st_training_log := st_training_log st;
     st_validation_log := st_validation_log st;
     st_ys := st_ys st; st_y_preds := st_y_preds st;
     st_loss := Some l; st_disk := st_disk st |}.

Definition set_disk (st : State) (d : list (string * Checkpoint)) : State :=
  {| st_self := st_self st; st_optimizer := st_optimizer st;
     st_lr_scheduler := st_lr_scheduler st;
     st_training_log := st_training_log st;
     st_validation_log := st_validation_log st;
     st_ys := st_ys st; st_y_preds := st_y_preds st;
     st_loss := st_loss st; st_disk := d |}.

(** Control flow of a statement sequence: it runs through, or an exception
    leaves it with the state reached so far. *)
Inductive flow : Type :=
| Continue (st : State)
| Raised (st : State) (e : exn).

Definition and_then (f : flow) (k : State -> flow) : flow :=
  match f with
  | Continue st => k st
  | Raised st e => Raised st e
  end.

(** [self.model.train()] and [self.model.eval()] *)
Definition model_mode (st : State) (training : bool) : State :=
  let m := p_model (st_self st) in
  set_self st (set_model (st_self st)
    {| m_params := m_params m; m_training := training;
       m_device := m_device m |}).

(** *** The body of the training loop (one batch) *)

Definition train_batch (loss_func_with_grad : LossFn) (epoch step : Z)
    (st : State) (b : Batch T) : State :=
  let x := as_long F (fst b) in
  let y := as_float F (snd b) in
  let m := p_model (st_self st) in
  (* Forward pass *)
  let y_pred := forward F (m_params m) (m_training m) x in
  (* optimizer.zero_grad(): the gradients below are computed afresh *)
  let loss := loss_func_with_grad y_pred y in
  (* loss.backward() *)
  let g := backward F (m_params m) (m_training m) x y loss in
  (* optimizer.step() *)
  let o := st_optimizer st in
  let upd := opt_update (o_rule o) (o_lr o) (o_state o) (m_params m) g in
  let st := set_loss st loss in
  let st := set_self st (set_model (st_self st)
              {| m_params := fst upd; m_training := m_training m;
                 m_device := m_device m |}) in
  let st := set_optimizer st (set_opt_state o (snd upd)) (st_lr_scheduler st) in
  (* training_log["errors"].append({"epoch": epoch, "step": step, "loss": loss}) *)
  let st := set_training_log st
              (append_error (st_training_log st)
                 {| e_epoch := epoch; e_step := step; e_loss := loss |}) in
  (* self.train_writer.add_scalar("loss", loss) *)
  let st := set_self st (set_train_writer (st_self st)
              (add_scalar (p_train_writer (st_self st)) "loss" (LossValue loss))) in
  (* ys += list(y...); y_preds += list(y_pred...) *)
  set_accumulators st (st_ys st ++ y) (st_y_preds st ++ y_pred).

(** [for x_train, y_train in self.train_loader: ...]; [step] is the local
    the loop body records: the body never assigns it. *)
Fixpoint train_batches (loss_func_with_grad : LossFn) (epoch step : Z)
    (st : State) (batches : list (Batch T)) : State :=
  match batches with
  | [] => st
  | b :: rest =>
      train_batches loss_func_with_grad epoch step
        (train_batch loss_func_with_grad epoch step st b) rest
  end.

(** *** The body of the validation loop (one batch) *)

Definition valid_batch (loss_func : LossFn) (epoch : Z)
    (st : State) (b : Batch T) : flow :=
  let x := as_long F (fst b) in
  let y := as_float F (snd b) in
  let m := p_model (st_self st) in
  let y_pred := forward F (m_params m) (m_training m) x in
  let loss := loss_func y_pred y in
  let st := set_loss st loss in
  (* validation_log.append({"epoch": epoch, "loss": loss}) *)
  match dict_append (st_validation_log st) (epoch, loss) with
  | Raise e => Raised st e
  | Ok vlog =>
      let st := set_validation_log st vlog in
      (* self.valid_writer.add_scalar("loss", loss) *)
      let st := set_self st (set_valid_writer (st_self st)
                  (add_scalar (p_valid_writer (st_self st)) "loss"
                     (LossValue loss))) in
      (* ys += list(y...); y_preds += list(y_pred...) *)
      Continue (set_accumulators st (st_ys st ++ y) (st_y_preds st ++ y_pred))
  end.

Fixpoint valid_batches (loss_func : LossFn) (epoch : Z)
    (st : State) (batches : list (Batch T)) : flow :=
  match batches with
  | [] => Continue st
  | b :: rest =>
      and_then (valid_batch loss_func epoch st b)
        (fun st' => valid_batches loss_func epoch st' rest)
  end.

(** *** Scores of an epoch *)

(** [score = score_func["func"](ys, y_preds)
     scores.append({score_func["name"]: score})
     writer.add_scalar(score_func["name"], score)] *)
Definition score_step (ys : list (Label T)) (y_preds : list (Pred T))
    (acc : list (string * Score T) * SummaryWriter) (score_func : ScoreFunc)
  : list (string * Score T) * SummaryWriter :=
  let score := sf_func score_func ys y_preds in
  (fst acc ++ [(sf_name score_func, score)],
   add_scalar (snd acc) (sf_name score_func) (ScoreValue score)).

Definition run_scores (score_functions : list ScoreFunc)
    (ys : list (Label T)) (y_preds : list (Pred T)) (w : SummaryWriter)
  : list (string * Score T) * SummaryWriter :=
  fold_left (score_step ys y_preds) score_functions ([], w).

Definition training_scores (kw : TrainKwargs) (epoch : Z) (st : State) : State :=
  match kw_score_functions kw with
  | None => st
  | Some score_functions =>
      let r := run_scores score_functions (st_ys st) (st_y_preds st)
                 (p_train_writer (st_self st)) in
      let st := set_self st (set_train_writer (st_self st) (snd r)) in
      set_training_log st
        (append_scores (st_training_log st)
           {| s_epoch := epoch; s_scores := fst r |})
  end.

Definition validation_scores (kw : TrainKwargs) (epoch : Z) (st : State) : State :=
  match kw_score_functions kw with
  | None => st
  | Some score_functions =>
      let r := run_scores score_functions (st_ys st) (st_y_preds st)
                 (p_valid_writer (st_self st)) in
      let st := set_self st (set_valid_writer (st_self st) (snd r)) in
      set_validation_log st
        (append_scores (st_validation_log st)
           {| s_epoch := epoch; s_scores := fst r |})
  end.

(** *** Saving the model at the configured checkpoints *)

(** [if "save_checkpoints" in kwargs.keys():
       if epoch % kwargs["save_checkpoints"]["epoch"] == 0:
         torch.save({..., "loss": loss}, path)].
    [%] on Python ints is the floored modulo, [Z.modulo], and raises on a
    zero divisor; reading the local [loss] raises while it is unbound. *)
Definition save_checkpoint (kw : TrainKwargs) (epoch : Z) (st : State) : flow :=
  match kw_save_checkpoints kw with
  | None => Continue st
  | Some cfg =>
      if cc_epoch cfg =? 0 then
        Raised st (ZeroDivisionError "integer modulo by zero")
      else if epoch mod cc_epoch cfg =? 0 then
        match st_loss st with
        | None =>
            Raised st (UnboundLocalError
              "cannot access local variable 'loss' where it is not associated with a value")
        | Some loss =>
            let o := st_optimizer st in
            Continue (set_disk st
              (st_disk st ++
                 [(cc_path cfg,
                   {| ck_epoch := epoch;
                      ck_model_state_dict := m_params (p_model (st_self st));
                      ck_optimizer_state_dict := (o_lr o, o_state o);
                      ck_loss := loss |})]))
        end
      else Continue st
  end.

(** *** One epoch *)

(** From [ys = []] to the end of the batch loop. *)
Definition batch_loop (loss_func_with_grad : LossFn) (epoch : Z) (st : State)
  : State :=
  (* ys = []; y_preds = [] *)
  let st := set_accumulators st [] [] in
  let st := model_mode st true in
  let step := 0 in
  train_batches loss_func_with_grad epoch step st
    (load_batches F (p_train_loader (st_self st)) epoch).

(** From [ys = []] to [self.model.eval()]: the training batches, the
    scheduler step and the training scores. *)
Definition training_phase (loss_func_with_grad : LossFn)
    (kw : TrainKwargs) (epoch : Z) (st : State) : flow :=
  let st := batch_loop loss_func_with_grad epoch st in
  (* lr_scheduler.step() *)
  match scheduler_step (st_lr_scheduler st) (st_optimizer st) with
  | Raise e => Raised st e
  | Ok os =>
      let st := set_optimizer st (fst os) (snd os) in
      let st := training_scores kw epoch st in
      Continue (model_mode st false)
  end.

(** The validation batches and the validation scores; the accumulators
    are the ones the training phase left. *)
Definition validation_phase (loss_func : LossFn)
    (kw : TrainKwargs) (epoch : Z) (st : State) : flow :=
  and_then
    (valid_batches loss_func epoch st
       (load_batches F (p_test_loader (st_self st)) epoch))
    (fun st => Continue (validation_scores kw epoch st)).

(** The progress bar only displays, but what it is given is computed:
    [pbar.set_postfix({"lr": lr_scheduler.get_lr()})] calls the scheduler
    before anything else in the epoch. *)
Definition epoch_body (loss_func loss_func_with_grad : LossFn)
    (kw : TrainKwargs) (epoch : Z) (st : State) : flow :=
  match scheduler_get_lr (st_lr_scheduler st) with
  | Raise e => Raised st e
  | Ok _ =>
      and_then (training_phase loss_func_with_grad kw epoch st)
        (fun st =>
           and_then (validation_phase loss_func kw epoch st)
             (fun st => save_checkpoint kw epoch st))
  end.

(** [for epoch in range(self.epochs): ...] *)
Fixpoint epoch_loop (loss_func loss_func_with_grad : LossFn)
    (kw : TrainKwargs) (epochs : list Z) (st : State) : flow :=
  match epochs with
  | [] => Continue st
  | epoch :: rest =>
      and_then (epoch_body loss_func loss_func_with_grad kw epoch st)
        (fun st' => epoch_loop loss_func loss_func_with_grad kw rest st')
  end.

(** *** Pipeline.train *)

(** The learning rate, the optimizer and the scheduler.  Rates are
    rationals. *)
Definition default_lr : Q := 1 # 1000.

Definition configured_lr (kw : TrainKwargs) : Q :=
  match kw_lr kw with
  | Some lr => lr
  | None => default_lr
  end.

(** [kwargs["optim"]] if given, [optim.Adam] otherwise. *)
Definition optimizer_class (kw : TrainKwargs) : Optim T :=
  match kw_optim kw with
  | Some cls => cls
  | None => Adam F
  end.

(** The scheduler of the optimizer: the caller's instance, or [LambdaLR]
    with [step_size_func], or [LambdaLR] with [lambda e: lr]. *)
Definition attach_scheduler (kw : TrainKwargs) (lr : Q) (optimizer : Optimizer)
  : Optimizer * Scheduler :=
  match kw_lr_scheduler kw with
  | Some lr_scheduler => (optimizer, Custom lr_scheduler)
  | None =>
      match kw_step_size_func kw with
      | Some step_size_func => new_LambdaLR optimizer step_size_func
      | None => new_LambdaLR optimizer (fun e => lr)
      end
  end.

(** The statements between the two assertions: they construct the
    optimizer, which may raise, and then the scheduler. *)
Definition configure_optimizer (p : Pipeline) (kw : TrainKwargs)
  : result (Optimizer * Scheduler) :=
  let lr := configured_lr kw in
  (optimizer <-
     match kw_optim kw with
     | Some cls => construct_optimizer cls (m_params (p_model p)) lr
     | None => construct_optimizer (Adam F) (m_params (p_model p)) lr
     end ;;
   Ok (attach_scheduler kw lr optimizer))%py.

(** The state in which the epoch loop starts, given the optimizer and the
    scheduler. *)
Definition loop_start (p : Pipeline) (os : Optimizer * Scheduler) : State :=
  {| st_self := p; st_optimizer := fst os; st_lr_scheduler := snd os;
     st_training_log := empty_log; st_validation_log := empty_log;
     st_ys := []; st_y_preds := []; st_loss := None; st_disk := [] |}.

(** The state in which the epoch loop starts when the optimizer's
    constructor returns. *)
Definition initial_state (p : Pipeline) (kw : TrainKwargs) : State :=
  let lr := configured_lr kw in
  loop_start p
    (attach_scheduler kw lr
       (new_optimizer (optimizer_class kw) (m_params (p_model p)) lr)).

(** What a call of [train] comes to: one of its two assertions failing
    (with the pipeline object as it is then), an exception of the optimizer
    set-up between them, an exception inside the loop (with the state
    reached), or the returned pair of logs. *)
Inductive Outcome : Type :=
| SetupFailed (self : Pipeline) (e : exn)
| SetupRaised (self : Pipeline) (e : exn)
| Aborted (st : State) (e : exn)
| Returned (st : State) (logs : Log * Log).

Definition train (p : Pipeline) (kw : TrainKwargs) : Outcome :=
  match kw_num_epochs kw with
  | None => SetupFailed p (AssertionError "Provide num_epochs in **kwargs")
  | Some num_epochs =>
      (* self.epochs = kwargs["num_epochs"] *)
      let p := set_epochs p num_epochs in
      match configure_optimizer p kw with
      | Raise e => SetupRaised p e
      | Ok os =>
          let st := loop_start p os in
          match kw_loss_func kw, kw_loss_func_with_grad kw with
          | Some loss_func, Some loss_func_with_grad =>
              match epoch_loop loss_func loss_func_with_grad kw
                      (py_range num_epochs) st with
              | Continue st' =>
                  Returned st' (st_training_log st', st_validation_log st')
              | Raised st' e => Aborted st' e
              end
          | _, _ =>
              SetupFailed p (AssertionError
                "loss_func and loss_func_with_grad must be present in **kwargs")
          end
      end
  end.

(** Observations on an outcome. *)
Definition final_self (o : Outcome) : Pipeline :=
  match o with
  | SetupFailed p _ => p
  | SetupRaised p _ => p
  | Aborted st _ => st_self st
  | Returned st _ => st_self st
  end.

Definition raised (o : Outcome) : option exn :=
  match o with
  | SetupFailed _ e => Some e
  | SetupRaised _ e => Some e
  | Aborted _ e => Some e
  | Returned _ _ => None
  end.

Definition written_files (o : Outcome) : list (string * Checkpoint) :=
  match o with
  | SetupFailed _ _ => []
  | SetupRaised _ _ => []
  | Aborted st _ => st_disk st
  | Returned st _ => st_disk st
  end.

(** The state in which the epoch loop was left, if it was entered. *)
Definition loop_state (o : Outcome) : option State :=
  match o with
  | SetupFailed _ _ => None
  | SetupRaised _ _ => None
  | Aborted st _ => Some st
  | Returned st _ => Some st
  end.

Definition flow_state (f : flow) : State :=
  match f with
  | Continue st => st
  | Raised st _ => st
  end.

(** The attributes of the pipeline object that [train] neither rebinds nor
    mutates through. *)
Definition same_frame (p p' : Pipeline) : Prop :=
  p_name p' = p_name p /\
  p_batch_size p' = p_batch_size p /\
  p_root_dir p' = p_root_dir p /\
  p_image_data_file p' = p_image_data_file p /\
  p_preprocessor p' = p_preprocessor p /\
  p_args p' = p_args p /\
  p_device p' = p_device p /\
  p_train_loader p' = p_train_loader p /\
  p_test_loader p' = p_test_loader p.

(** What the epoch loop keeps of the pipeline object: the frame and
    [epochs]; only the model and the two writers are mutated. *)
Definition loop_frame (p p' : Pipeline) : Prop :=
  same_frame p p' /\ p_epochs p' = p_epochs p.

(** The epochs of the checkpoints written, oldest first. *)
Definition epochs_saved (d : list (string * Checkpoint)) : list Z :=
  map (fun f => ck_epoch (snd f)) d.

(** The pipeline object as a caller sees it who expects [train] to touch
    nothing but the model: the frame, the writers and [epochs]. *)
Definition unchanged_except_model (p p' : Pipeline) : Prop :=
  same_frame p p' /\
  p_train_writer p' = p_train_writer p /\
  p_valid_writer p' = p_valid_writer p /\
  p_epochs p' = p_epochs p.

(** What the training loop leaves alone: the validation log, the files,
    the scheduler, the group's rate and the scores of the training log. *)
Definition untouched_by_batches (st st' : State) : Prop :=
  st_validation_log st' = st_validation_log st /\
  st_disk st' = st_disk st /\
  st_lr_scheduler st' = st_lr_scheduler st /\
  o_lr (st_optimizer st') = o_lr (st_optimizer st) /\
  scores (st_training_log st') = scores (st_training_log st).

(** The three keyword arguments [train] insists on. *)
Definition missing_required (kw : TrainKwargs) : Prop :=
  kw_num_epochs kw = None \/ kw_loss_func kw = None \/
  kw_loss_func_with_grad kw = None.

(** The scheduler is the [LambdaLR] that [train] builds itself. *)
Definition lambda_scheduled (st : State) : Prop :=
  exists base_lr lr_lambda last_epoch,
    st_lr_scheduler st = LambdaLR base_lr lr_lambda last_epoch.

(** The exceptions the statements of the epoch loop raise themselves, the
    calls on a caller's scheduler apart. *)
Definition loop_exception (e : exn) : Prop :=
  (exists msg, e = AttributeError msg) \/
  (exists msg, e = ZeroDivisionError msg) \/
  (exists msg, e = UnboundLocalError msg).

(** The scores a list of score functions gives on the accumulators. *)
Definition scores_of (score_functions : list ScoreFunc)
    (ys : list (Label T)) (y_preds : list (Pred T)) : list (string * Score T) :=
  map (fun f => (sf_name f, sf_func f ys y_preds)) score_functions.

End PipelineModel.

Unset Implicit Arguments.

Arguments Custom {T F} s.
Arguments LambdaLR {T F} base_lr lr_lambda last_epoch.
Arguments empty_log {T}.
Arguments e_epoch {T} _.
Arguments e_step {T} _.
Arguments e_loss {T} _.
Arguments s_epoch {T} _.
Arguments s_scores {T} _.
Arguments ck_epoch {T} _.
Arguments errors {T} _.
Arguments scores {T} _.
Arguments dict_append {T A} l entry.

(** ** A small instance to run the model on

    A one-weight linear model over the rationals, with squared error and
    plain gradient descent standing in for the framework's [Adam]; a loader
    is the list of batches it yields on every pass. *)

Module Toy.

Definition tensors : Tensors :=
  {| Image := Q; Label := Q; Pred := Q; Loss := Q; Score := Q; Grad := Q;
     Params := Q; OptState := Z |}.

Definition squared_error (y_pred y : list Q) : Q :=
  fold_right Qplus 0%Q
    (map (fun py => Qmult (fst py - snd py) (fst py - snd py)) (combine y_pred y)).

(** Like the framework's optimizers, it rejects a negative rate. *)
Definition gradient_descent : Optim tensors :=
  @Build_Optim tensors
    (fun (_ : Q) (lr : Q) =>
       if Qnum lr <? 0 then Some (ValueError "Invalid learning rate") else None)
    (fun _ : Q => 0)
    (fun (lr : Q) (steps : Z) (w g : Q) => (Qred (w - lr * g)%Q, steps + 1)).

Definition one_sample_batches (dm : DatasetMapper tensors) : list (Batch tensors) :=
  map (fun row : string * Q =>
         ([dm_preprocessor dm (PosixPath.join (dm_root_dir dm) (fst row))],
          [snd row]))
      (dm_image_data_file dm).

Definition framework : Framework tensors :=
  @Build_Framework tensors
    (list (Batch tensors))                       (* Loader *)
    unit                                         (* Args *)
    bool                                         (* CustomScheduler: does
                                                    the object have get_lr *)
    (map (fun x : Q => inject_Z (Z.quot (Qnum x) (Z.pos (Qden x)))))
                                                 (* as_long: truncation *)
    (fun y : list Q => y)                        (* as_float: the labels
                                                    are kept exact *)
    (fun (w : Q) (_ : bool) (x : list Q) => map (Qmult w) x)
    (fun (w : Q) (_ : bool) (x y : list Q) (_ : Q) =>
       fold_right Qplus 0%Q
         (map (fun xy => (2 * (w * fst xy - snd xy) * fst xy)%Q) (combine x y)))
    (fun dm _ _ _ => one_sample_batches dm)      (* DataLoader *)
    (fun (l : list (Batch tensors)) (_ : Z) => l) (* load_batches *)
    gradient_descent                             (* Adam *)
    (fun has_get_lr : bool =>                    (* custom_get_lr *)
       if has_get_lr then Ok []
       else Raise (AttributeError "object has no attribute 'get_lr'"))
    (fun s : bool => Ok s)                       (* custom_step *)
    false                                        (* cuda_is_available *)
    "20240101-000000".

Definition preprocessor : Preprocessor tensors :=
  fun path : string => inject_Z (Z.of_nat (String.length path)).

Definition writer (logdir : string) : SummaryWriter tensors :=
  @Build_SummaryWriter tensors logdir [].

Definition model : Model tensors :=
  @Build_Model tensors 0%Q true (Some cpu).

(** A pipeline object whose loaders yield the given batches. *)
Definition pipeline (train_loader test_loader : list (Batch tensors))
  : Pipeline framework :=
  @Build_Pipeline tensors framework
    "toy_20240101-000000"                        (* name *)
    model
    1                                            (* batch_size *)
    "images"                                     (* root_dir *)
    "labels.csv"                                 (* image_data_file *)
    preprocessor
    tt                                           (* args *)
    cpu
    train_loader
    test_loader
    (writer "logs/fit/toy_20240101-000000/train")
    (writer "logs/fit/toy_20240101-000000/validation")
    None.                                        (* epochs: not set yet *)

(** The keyword arguments [num_epochs], [loss_func], [loss_func_with_grad],
    and the optional [score_functions] and [save_checkpoints]. *)
Definition kwargs (num_epochs : Z)
    (score_functions : option (list (ScoreFunc tensors)))
    (save_checkpoints : option CheckpointConfig) : TrainKwargs framework :=
  @Build_TrainKwargs tensors framework
    (Some num_epochs)
    None                                         (* lr *)
    None                                         (* optim *)
    None                                         (* lr_scheduler *)
    None                                         (* step_size_func *)
    (Some squared_error)                         (* loss_func *)
    (Some squared_error)                         (* loss_func_with_grad *)
    score_functions
    save_checkpoints.

(** Only [num_epochs]: both loss functions are missing. *)
Definition only_num_epochs (num_epochs : Z) : TrainKwargs framework :=
  @Build_TrainKwargs tensors framework
    (Some num_epochs) None None None None None None None None.

(** No keyword argument at all. *)
Definition no_kwargs : TrainKwargs framework :=
  @Build_TrainKwargs tensors framework
    None None None None None None None None None.

(** A score function that counts the accumulated predictions. *)
Definition count_predictions : ScoreFunc tensors :=
  @Build_ScoreFunc tensors
    (fun (_ : list Q) (y_preds : list Q) =>
       inject_Z (Z.of_nat (List.length y_preds)))
    "count".

Definition batch1 : Batch tensors := ([1%Q], [2%Q]).
Definition batch2 : Batch tensors := ([3%Q], [6%Q]).

(** A two-row table and a mapper over it. *)
Definition table : Table tensors := [("a.png"%string, 2%Q); ("b.png"%string, 6%Q)].

Definition mapper (teacher : option (Teacher tensors)) : DatasetMapper tensors :=
  Build_DatasetMapper tensors "images" table preprocessor teacher.

Definition file_system : FileSystem tensors :=
  fun path => if String.eqb path "labels.csv" then Some table else None.

End Toy.

(** ** Further inputs for the toy instance *)

Module Cases.

(** A table whose first image name is absolute. *)
Definition absolute_table : Table Toy.tensors :=
  [("/data/a.png"%string, 2%Q); ("b.png"%string, 6%Q)].

(** The same image names as [Toy.table], other labels. *)
Definition relabelled_table : Table Toy.tensors :=
  [("a.png"%string, 0%Q); ("b.png"%string, 1%Q)].

Definition mapper_over (root_dir : string) (table : Table Toy.tensors)
    (teacher : option (Teacher Toy.tensors)) : DatasetMapper Toy.tensors :=
  Build_DatasetMapper Toy.tensors root_dir table Toy.preprocessor teacher.

(** A teacher that labels an image with its double. *)
Definition doubling_teacher : Teacher Toy.tensors := fun image => Qmult 2 image.

(** A file system that holds the two-row table and nothing else. *)
Definition file_system : FileSystem Toy.tensors := Toy.file_system.

(** Halve the rate at every epoch. *)
Definition halving (e : Z) : Q := 1 # Pos.pow 2 (Z.to_pos (e + 1)).

(** [num_epochs], both loss functions and [step_size_func]. *)
Definition kwargs_step_size (num_epochs : Z) (step_size_func : Z -> Q)
  : TrainKwargs Toy.framework :=
  @Build_TrainKwargs Toy.tensors Toy.framework
    (Some num_epochs) None None None (Some step_size_func)
    (Some Toy.squared_error) (Some Toy.squared_error) None None.

(** [num_epochs] and a negative [lr]; both loss functions are missing. *)
Definition negative_rate (num_epochs : Z) : TrainKwargs Toy.framework :=
  @Build_TrainKwargs Toy.tensors Toy.framework
    (Some num_epochs) (Some (-1 # 1)) None None None None None None None.

(** [num_epochs], both loss functions and [lr]. *)
Definition kwargs_rate (num_epochs : Z) (lr : Q) : TrainKwargs Toy.framework :=
  @Build_TrainKwargs Toy.tensors Toy.framework
    (Some num_epochs) (Some lr) None None None
    (Some Toy.squared_error) (Some Toy.squared_error) None None.

(** [num_epochs], both loss functions and the caller's scheduler. *)
Definition kwargs_scheduler (num_epochs : Z) (has_get_lr : bool)
  : TrainKwargs Toy.framework :=
  @Build_TrainKwargs Toy.tensors Toy.framework
    (Some num_epochs) None None (Some has_get_lr) None
    (Some Toy.squared_error) (Some Toy.squared_error) None None.

Definition every (interval : Z) : CheckpointConfig :=
  {| cc_epoch := interval; cc_path := "ck.pt" |}.

(** Pipelines over two batches of training data: without validation data,
    with the same data for validation, and with no data at all. *)
Definition training_only : Pipeline Toy.framework :=
  Toy.pipeline [Toy.batch1; Toy.batch2] [].

Definition with_validation : Pipeline Toy.framework :=
  Toy.pipeline [Toy.batch1; Toy.batch2] [Toy.batch1; Toy.batch2].

Definition without_data : Pipeline Toy.framework := Toy.pipeline [] [].

End Cases.

(** * Properties *)

(** ** DatasetMapper *)

Section DatasetMapperFacts.

Variable T : Tensors.
Implicit Types (dm : DatasetMapper T) (t : Table T).

Lemma iloc_in_range t i :
  0 <= i < Z.of_nat (List.length t) ->
  exists row, nth_error t (Z.to_nat i) = Some row /\ iloc t i = Ok row.
Proof.
  intros [Hlo Hhi]. unfold iloc.
  replace (i <? 0) with false by (symmetry; apply Z.ltb_ge; lia).
  replace (0 <=? i) with true by (symmetry; apply Z.leb_le; lia).
  replace (i <? Z.of_nat (List.length t)) with true
    by (symmetry; apply Z.ltb_lt; lia).
  cbn [andb].
  destruct (nth_error t (Z.to_nat i)) as [row|] eqn:Hnth.
  - exists row. split; reflexivity.
  - apply nth_error_None in Hnth. lia.
Qed.

(** A negative position counts from the end of the table. *)
Lemma iloc_negative t i :
  - Z.of_nat (List.length t) <= i < 0 ->
  iloc t i = iloc t (i + Z.of_nat (List.length t)).
Proof.
  intros [Hlo Hhi]. unfold iloc.
  replace (i <? 0) with true by (symmetry; apply Z.ltb_lt; lia).
  replace (i + Z.of_nat (List.length t) <? 0) with false
    by (symmetry; apply Z.ltb_ge; lia).
  reflexivity.
Qed.

Lemma iloc_out_of_bounds t i :
  Z.of_nat (List.length t) <= i ->
  iloc t i = Raise (IndexError "single positional indexer is out-of-bounds").
Proof.
  intros Hi. unfold iloc.
  replace (i <? 0) with false by (symmetry; apply Z.ltb_ge; lia).
  replace (i <? Z.of_nat (List.length t)) with false
    by (symmetry; apply Z.ltb_ge; lia).
  rewrite andb_false_r. reflexivity.
Qed.


(** The constructor succeeds once the fourth argument is passed and the
    table file exists. *)
Lemma DatasetMapper_init_with_teacher fs root_dir file pre teacher t :
  fs file = Some t ->
  DatasetMapper_init fs root_dir file pre (Some teacher) =
    Ok (Build_DatasetMapper T root_dir t pre teacher).
Proof.
  intros Hfs. unfold DatasetMapper_init, read_csv. rewrite Hfs. reflexivity.
Qed.

Lemma DatasetMapper_init_three_arguments fs root_dir file pre :
  exists msg,
    @DatasetMapper_init T fs root_dir file pre None = Raise (TypeError msg).
Proof. eexists. reflexivity. Qed.

End DatasetMapperFacts.


Example getitem_second_row :
  DatasetMapper_getitem (Toy.mapper None) (PyInt 1) = Ok (12%Q, 6%Q).
Proof. reflexivity. Qed.

Example getitem_second_row_teacher :
  DatasetMapper_getitem (Toy.mapper (Some (fun image => Qplus image 1))) (TensorInt 1)
  = Ok (12%Q, Qplus 12 1).
Proof. reflexivity. Qed.

(** ** Pipeline *)

Section PipelineFacts.

Variable T : Tensors.
Variable F : Framework T.
Implicit Types (p : Pipeline F) (st : State F) (kw : TrainKwargs F).
Implicit Types (lf lfg : LossFn T) (epoch step : Z).

(** *** Construction *)

(** C1, as the code behaves: for every name, model constructor, batch
    size, dataset location, preprocessor and file system, construction
    raises [TypeError] at its first [DatasetMapper(...)] call, which passes
    three arguments to a constructor that requires four; no mapper, no
    loader and no pipeline object is built. *)
Theorem Pipeline_init_raises_TypeError
    fs name model batch_size root_dir image_data_file preprocessor kwargs :
  Pipeline_init F fs name model batch_size root_dir image_data_file
    preprocessor kwargs
  = Raise (TypeError
      "__init__() missing 1 required positional argument: 'teacher_func'").
Proof. reflexivity. Qed.

(** *** The frame of the pipeline object *)

Lemma same_frame_refl p : same_frame p p.
Proof. repeat split. Qed.

Lemma same_frame_trans p1 p2 p3 :
  same_frame p1 p2 -> same_frame p2 p3 -> same_frame p1 p3.
Proof.
  unfold same_frame. intros H12 H23.
  repeat match goal with H : _ /\ _ |- _ => destruct H end.
  repeat split; congruence.
Qed.

Lemma same_frame_set_model p m : same_frame p (set_model p m).
Proof. repeat split. Qed.

Lemma same_frame_set_train_writer p w : same_frame p (set_train_writer p w).
Proof. repeat split. Qed.

Lemma same_frame_set_valid_writer p w : same_frame p (set_valid_writer p w).
Proof. repeat split. Qed.

Lemma same_frame_set_epochs p n : same_frame p (set_epochs p n).
Proof. repeat split. Qed.

Lemma loop_frame_refl p : loop_frame p p.
Proof. repeat split. Qed.

Lemma loop_frame_trans p1 p2 p3 :
  loop_frame p1 p2 -> loop_frame p2 p3 -> loop_frame p1 p3.
Proof.
  intros [H12 E12] [H23 E23]. split.
  - eapply same_frame_trans; eassumption.
  - congruence.
Qed.

Lemma same_frame_test_loader p p' :
  same_frame p p' -> p_test_loader p' = p_test_loader p.
Proof. unfold same_frame. intuition. Qed.

Lemma same_frame_train_loader p p' :
  same_frame p p' -> p_train_loader p' = p_train_loader p.
Proof. unfold same_frame. intuition. Qed.

(** *** The training batches *)

Lemma train_batch_frame lfg epoch step st b :
  loop_frame (st_self st) (st_self (train_batch lfg epoch step st b)).
Proof. repeat split. Qed.

Lemma train_batches_frame lfg epoch step batches :
  forall st,
    loop_frame (st_self st) (st_self (train_batches lfg epoch step st batches)).
Proof.
  induction batches as [|b rest IH]; intros st; cbn [train_batches].
  - apply loop_frame_refl.
  - eapply loop_frame_trans; [apply (train_batch_frame lfg epoch step st b)|].
    apply IH.
Qed.

Lemma train_batches_untouched lfg epoch step batches :
  forall st, untouched_by_batches st (train_batches lfg epoch step st batches).
Proof.
  induction batches as [|b rest IH]; intros st; cbn [train_batches].
  - repeat split.
  - destruct (IH (train_batch lfg epoch step st b)) as (H1 & H2 & H3 & H4 & H5).
    repeat split; [rewrite H1|rewrite H2|rewrite H3|rewrite H4|rewrite H5];
      reflexivity.
Qed.

(** Each training batch appends one record, stamped with the epoch and
    with the value [step] had when the loop started. *)
Lemma train_batches_errors lfg epoch step batches :
  forall st,
  exists losses,
    List.length losses = List.length batches /\
    errors (st_training_log (train_batches lfg epoch step st batches)) =
      errors (st_training_log st) ++
      map (fun l => {| e_epoch := epoch; e_step := step; e_loss := l |}) losses.
Proof.
  induction batches as [|b rest IH]; intros st; cbn [train_batches].
  - exists []. split; [reflexivity|]. cbn [map]. rewrite app_nil_r. reflexivity.
  - destruct (IH (train_batch lfg epoch step st b)) as (losses & Hlen & Herr).
    eexists (_ :: losses). split; [cbn [List.length]; rewrite Hlen; reflexivity|].
    rewrite Herr. cbn. rewrite <- app_assoc. reflexivity.
Qed.

Lemma train_batches_loss lfg epoch step batches :
  forall st,
    st_loss st <> None \/ batches <> [] ->
    st_loss (train_batches lfg epoch step st batches) <> None.
Proof.
  induction batches as [|b rest IH]; intros st H; cbn [train_batches].
  - destruct H as [H|H]; [exact H | congruence].
  - apply IH. left. cbn. discriminate.
Qed.

(** *** The scores *)

Lemma run_scores_fold score_functions ys y_preds :
  forall acc : list (string * Score T) * SummaryWriter T,
    fst (fold_left (score_step ys y_preds) score_functions acc) =
      fst acc ++ scores_of score_functions ys y_preds.
Proof.
  induction score_functions as [|f rest IH]; intros acc;
    cbn [fold_left scores_of map].
  - rewrite app_nil_r. reflexivity.
  - rewrite IH. unfold score_step at 1. cbn [fst].
    rewrite <- app_assoc. reflexivity.
Qed.

(** The scores do not depend on the writer they are sent to. *)
Lemma run_scores_values score_functions ys y_preds (w : SummaryWriter T) :
  fst (run_scores score_functions ys y_preds w) =
    scores_of score_functions ys y_preds.
Proof. unfold run_scores. rewrite run_scores_fold. reflexivity. Qed.

Lemma training_scores_frame kw epoch st :
  loop_frame (st_self st) (st_self (training_scores kw epoch st)).
Proof. unfold training_scores. destruct (kw_score_functions kw); repeat split. Qed.

Lemma validation_scores_frame kw epoch st :
  loop_frame (st_self st) (st_self (validation_scores kw epoch st)).
Proof. unfold validation_scores. destruct (kw_score_functions kw); repeat split. Qed.

(** *** The training phase of an epoch *)

(** The training phase, with the state its batch loop leaves named. *)
Lemma training_phase_unfold lfg kw epoch st :
  training_phase lfg kw epoch st =
    let st2 := train_batches lfg epoch 0
                 (model_mode (set_accumulators st [] []) true)
                 (load_batches F (p_train_loader (st_self st)) epoch) in
    match scheduler_step (st_lr_scheduler st2) (st_optimizer st2) with
    | Raise e => Raised st2 e
    | Ok os =>
        Continue
          (model_mode
             (training_scores kw epoch (set_optimizer st2 (fst os) (snd os)))
             false)
    end.
Proof. reflexivity. Qed.

Ltac name_batch_loop lfg epoch st st2 :=
  rewrite training_phase_unfold; cbv zeta;
  set (st2 := train_batches lfg epoch 0
                (model_mode (set_accumulators st [] []) true)
                (load_batches F (p_train_loader (st_self st)) epoch)) in *;
  clearbody st2.

(** The lemmas on [flow_state] hold whether the scheduler's [step]
    returns or raises. *)
Lemma training_phase_frame lfg kw epoch st :
  loop_frame (st_self st)
    (st_self (flow_state (training_phase lfg kw epoch st))).
Proof.
  rewrite training_phase_unfold. cbv zeta.
  set (st1 := model_mode (set_accumulators st [] []) true).
  set (st2 := train_batches lfg epoch 0 st1 _).
  assert (H2 : loop_frame (st_self st) (st_self st2)).
  { eapply loop_frame_trans; [|apply train_batches_frame]. repeat split. }
  destruct (scheduler_step (st_lr_scheduler st2) (st_optimizer st2)) as [os|e];
    cbn [flow_state]; [|exact H2].
  set (st3 := set_optimizer st2 _ _).
  eapply loop_frame_trans; [exact H2|].
  eapply loop_frame_trans; [apply (training_scores_frame kw epoch st3)|].
  repeat split.
Qed.

Lemma training_phase_untouched lfg kw epoch st :
  st_validation_log (flow_state (training_phase lfg kw epoch st)) =
    st_validation_log st /\
  st_disk (flow_state (training_phase lfg kw epoch st)) = st_disk st.
Proof.
  destruct (train_batches_untouched lfg epoch 0
              (load_batches F (p_train_loader (st_self st)) epoch)
              (model_mode (set_accumulators st [] []) true))
    as (Hv & Hd & _).
  name_batch_loop lfg epoch st st2.
  destruct (scheduler_step (st_lr_scheduler st2) (st_optimizer st2)) as [os|e];
    cbn [flow_state].
  - unfold training_scores.
    destruct (kw_score_functions kw); cbn in *; rewrite Hv, Hd; split;
      reflexivity.
  - cbn in *. rewrite Hv, Hd. split; reflexivity.
Qed.

Lemma training_phase_errors lfg kw epoch st :
  exists losses,
    List.length losses =
      List.length (load_batches F (p_train_loader (st_self st)) epoch) /\
    errors (st_training_log (flow_state (training_phase lfg kw epoch st))) =
      errors (st_training_log st) ++
      map (fun l => {| e_epoch := epoch; e_step := 0; e_loss := l |}) losses.
Proof.
  destruct (train_batches_errors lfg epoch 0
              (load_batches F (p_train_loader (st_self st)) epoch)
              (model_mode (set_accumulators st [] []) true))
    as (losses & Hlen & Herr).
  exists losses. split; [exact Hlen|].
  name_batch_loop lfg epoch st st2.
  destruct (scheduler_step (st_lr_scheduler st2) (st_optimizer st2)) as [os|e];
    cbn [flow_state].
  - unfold training_scores.
    destruct (kw_score_functions kw); cbn in *; rewrite Herr; reflexivity.
  - cbn in *. rewrite Herr. reflexivity.
Qed.

Lemma training_phase_loss lfg kw epoch st :
  st_loss st <> None \/
  load_batches F (p_train_loader (st_self st)) epoch <> [] ->
  st_loss (flow_state (training_phase lfg kw epoch st)) <> None.
Proof.
  intros H.
  assert (H1 : st_loss (train_batches lfg epoch 0
                 (model_mode (set_accumulators st [] []) true)
                 (load_batches F (p_train_loader (st_self st)) epoch)) <> None)
    by (apply train_batches_loss; exact H).
  name_batch_loop lfg epoch st st2.
  destruct (scheduler_step (st_lr_scheduler st2) (st_optimizer st2)) as [os|e];
    cbn [flow_state]; [|exact H1].
  unfold training_scores.
  destruct (kw_score_functions kw); cbn in *; exact H1.
Qed.

(** A training phase that runs through ends with [self.model.eval()]. *)
Lemma training_phase_eval_mode lfg kw epoch st tp :
  training_phase lfg kw epoch st = Continue tp ->
  m_training (p_model (st_self tp)) = false.
Proof.
  rewrite training_phase_unfold. cbv zeta.
  destruct (scheduler_step _ _) as [os|e]; [|discriminate].
  intros H. injection H as <-. reflexivity.
Qed.

(** One epoch under a [LambdaLR] scheduler: [step] returns; the batches
    have run at the rate the group had, and the scheduler sets it to
    [base_lr * lr_lambda(e)]. *)
Lemma training_phase_rate lfg kw epoch st base_lr lr_lambda last_epoch :
  st_lr_scheduler st = LambdaLR base_lr lr_lambda last_epoch ->
  exists tp,
    training_phase lfg kw epoch st = Continue tp /\
    st_lr_scheduler tp = LambdaLR base_lr lr_lambda (last_epoch + 1) /\
    o_lr (st_optimizer tp) = Qmult base_lr (lr_lambda (last_epoch + 1)).
Proof.
  intros Hsched.
  destruct (train_batches_untouched lfg epoch 0
              (load_batches F (p_train_loader (st_self st)) epoch)
              (model_mode (set_accumulators st [] []) true))
    as (_ & _ & Hs & _ & _).
  name_batch_loop lfg epoch st st2.
  cbn in Hs. rewrite Hsched in Hs. rewrite Hs. cbn [scheduler_step].
  eexists. split; [reflexivity|].
  unfold training_scores.
  destruct (kw_score_functions kw); cbn; split; reflexivity.
Qed.

Lemma training_phase_lambda lfg kw epoch st :
  lambda_scheduled st ->
  exists tp,
    training_phase lfg kw epoch st = Continue tp /\ lambda_scheduled tp.
Proof.
  intros (base_lr & lr_lambda & k & Hsched).
  destruct (training_phase_rate lfg kw epoch st _ _ _ Hsched)
    as (tp & Htp & Hsched' & _).
  exists tp. split; [exact Htp|]. eexists _, _, _. exact Hsched'.
Qed.

Lemma get_lr_lambda st :
  lambda_scheduled st ->
  exists l, scheduler_get_lr (st_lr_scheduler st) = Ok l.
Proof.
  intros (base_lr & lr_lambda & k & ->). eexists. reflexivity.
Qed.

(** *** The validation phase *)

(** The first validation batch computes its loss and then fails on
    [validation_log.append]: nothing of the batch is recorded. *)
Lemma valid_batches_cons lf epoch st b rest :
  valid_batches lf epoch st (b :: rest) =
    Raised
      (set_loss st
         (lf (forward F (m_params (p_model (st_self st)))
                (m_training (p_model (st_self st))) (as_long F (fst b)))
             (as_float F (snd b))))
      (AttributeError "'dict' object has no attribute 'append'").
Proof. reflexivity. Qed.

Lemma valid_batches_continue lf epoch st batches st' :
  valid_batches lf epoch st batches = Continue st' ->
  batches = [] /\ st' = st.
Proof.
  destruct batches as [|b rest].
  - cbn. intros H. injection H as <-. split; reflexivity.
  - rewrite valid_batches_cons. discriminate.
Qed.

(** *** One epoch, by cases *)

(** The epoch is left at [get_lr], at the scheduler's [step], at the first
    validation batch, or it reaches its checkpoint test. *)
Lemma epoch_body_cases lf lfg kw epoch st :
  (exists e,
     scheduler_get_lr (st_lr_scheduler st) = Raise e /\
     epoch_body lf lfg kw epoch st = Raised st e) \/
  (exists st' e,
     training_phase lfg kw epoch st = Raised st' e /\
     epoch_body lf lfg kw epoch st = Raised st' e) \/
  (exists tp l,
     training_phase lfg kw epoch st = Continue tp /\
     load_batches F (p_test_loader (st_self st)) epoch <> [] /\
     epoch_body lf lfg kw epoch st =
       Raised (set_loss tp l)
         (AttributeError "'dict' object has no attribute 'append'")) \/
  (exists tp,
     training_phase lfg kw epoch st = Continue tp /\
     load_batches F (p_test_loader (st_self st)) epoch = [] /\
     epoch_body lf lfg kw epoch st =
       save_checkpoint kw epoch (validation_scores kw epoch tp)).
Proof.
  unfold epoch_body.
  destruct (scheduler_get_lr (st_lr_scheduler st)) as [l|e];
    [|left; exists e; split; reflexivity].
  right.
  pose proof (training_phase_frame lfg kw epoch st) as [Hframe _].
  destruct (training_phase lfg kw epoch st) as [tp|st' e];
    cbn [and_then flow_state] in *;
    [|left; exists st', e; split; reflexivity].
  right. unfold validation_phase.
  rewrite (same_frame_test_loader _ _ Hframe).
  destruct (load_batches F (p_test_loader (st_self st)) epoch) as [|b rest].
  - right. exists tp. repeat split.
  - left. rewrite valid_batches_cons. eexists tp, _.
    split; [reflexivity|]. split; [discriminate|]. reflexivity.
Qed.

Lemma epoch_body_no_validation lf lfg kw epoch st l tp :
  scheduler_get_lr (st_lr_scheduler st) = Ok l ->
  training_phase lfg kw epoch st = Continue tp ->
  load_batches F (p_test_loader (st_self st)) epoch = [] ->
  epoch_body lf lfg kw epoch st =
    save_checkpoint kw epoch (validation_scores kw epoch tp).
Proof.
  intros Hl Ht Hempty.
  destruct (epoch_body_cases lf lfg kw epoch st)
    as [(e & H & _) | [(st' & e & H & _) |
        [(tp' & l' & H & Hne & _) | (tp' & H & _ & ->)]]];
    try congruence.
Qed.

Lemma epoch_body_validation lf lfg kw epoch st l tp :
  scheduler_get_lr (st_lr_scheduler st) = Ok l ->
  training_phase lfg kw epoch st = Continue tp ->
  load_batches F (p_test_loader (st_self st)) epoch <> [] ->
  exists l',
    epoch_body lf lfg kw epoch st =
      Raised (set_loss tp l')
        (AttributeError "'dict' object has no attribute 'append'").
Proof.
  intros Hl Ht Hne.
  destruct (epoch_body_cases lf lfg kw epoch st)
    as [(e & H & _) | [(st' & e & H & _) |
        [(tp' & l' & H & _ & ->) | (tp' & H & Hempty & _)]]];
    try congruence.
  exists l'. congruence.
Qed.

Lemma save_checkpoint_cases kw epoch st :
  save_checkpoint kw epoch st = Continue st \/
  (exists e, save_checkpoint kw epoch st = Raised st e /\
             ((exists msg, e = ZeroDivisionError msg) \/
              (exists msg, e = UnboundLocalError msg))) \/
  (exists cfg ck,
     kw_save_checkpoints kw = Some cfg /\ ck_epoch ck = epoch /\
     epoch mod cc_epoch cfg = 0 /\ cc_epoch cfg <> 0 /\
     save_checkpoint kw epoch st =
       Continue (set_disk st (st_disk st ++ [(cc_path cfg, ck)]))).
Proof.
  unfold save_checkpoint.
  destruct (kw_save_checkpoints kw) as [cfg|]; [|left; reflexivity].
  destruct (cc_epoch cfg =? 0) eqn:Hzero.
  { right; left. eexists. split; [reflexivity|]. left. eexists. reflexivity. }
  destruct (epoch mod cc_epoch cfg =? 0) eqn:Hmod; [|left; reflexivity].
  destruct (st_loss st) as [loss|].
  - right; right. eexists cfg, _. split; [reflexivity|].
    split; [|split; [apply Z.eqb_eq; exact Hmod|split; [|reflexivity]]].
    + reflexivity.
    + apply Z.eqb_neq. exact Hzero.
  - right; left. eexists. split; [reflexivity|]. right. eexists. reflexivity.
Qed.

(** *** Invariants of the epoch loop *)

(** If the training phase takes [P] to [Q], wherever it is left, and the
    later statement groups of the epoch preserve [Q], then [Q] holds
    wherever the epoch is left. *)
Lemma epoch_body_triple (P Q : State F -> Prop) lf lfg kw epoch :
  (forall st, P st -> Q st) ->
  (forall st, P st -> Q (flow_state (training_phase lfg kw epoch st))) ->
  (forall st l, Q st -> Q (set_loss st l)) ->
  (forall st, Q st -> Q (validation_scores kw epoch st)) ->
  (forall st, Q st -> Q (flow_state (save_checkpoint kw epoch st))) ->
  forall st, P st -> Q (flow_state (epoch_body lf lfg kw epoch st)).
Proof.
  intros Hstay Htrain Hloss Hscores Hsave st HP.
  specialize (Htrain st HP).
  destruct (epoch_body_cases lf lfg kw epoch st)
    as [(e & _ & ->) | [(st' & e & Ht & ->) |
        [(tp & l & Ht & _ & ->) | (tp & Ht & _ & ->)]]];
    try rewrite Ht in Htrain; cbn [flow_state] in *.
  - apply Hstay, HP.
  - exact Htrain.
  - apply Hloss, Htrain.
  - apply Hsave, Hscores, Htrain.
Qed.

Lemma epoch_body_invariant (I : State F -> Prop) lf lfg kw :
  (forall epoch st, I st -> I (flow_state (training_phase lfg kw epoch st))) ->
  (forall st l, I st -> I (set_loss st l)) ->
  (forall epoch st, I st -> I (validation_scores kw epoch st)) ->
  (forall epoch st, I st -> I (flow_state (save_checkpoint kw epoch st))) ->
  forall epoch st, I st -> I (flow_state (epoch_body lf lfg kw epoch st)).
Proof.
  intros Htrain Hloss Hscores Hsave epoch.
  apply (epoch_body_triple I I); auto.
Qed.

Lemma epoch_loop_invariant (I : State F -> Prop) lf lfg kw :
  (forall epoch st, I st -> I (flow_state (epoch_body lf lfg kw epoch st))) ->
  forall epochs st, I st -> I (flow_state (epoch_loop lf lfg kw epochs st)).
Proof.
  intros Hbody epochs.
  induction epochs as [|epoch rest IH]; intros st HI; cbn [epoch_loop].
  - exact HI.
  - specialize (Hbody epoch st HI).
    destruct (epoch_body lf lfg kw epoch st) as [st'|st' e]; cbn [and_then].
    + apply IH. exact Hbody.
    + exact Hbody.
Qed.

Lemma save_checkpoint_state kw epoch st :
  flow_state (save_checkpoint kw epoch st) = st \/
  exists f, flow_state (save_checkpoint kw epoch st) =
              set_disk st (st_disk st ++ [f]).
Proof.
  destruct (save_checkpoint_cases kw epoch st)
    as [H | [(e & H & _) | (cfg & ck & _ & _ & _ & _ & H)]]; rewrite H.
  - left. reflexivity.
  - left. reflexivity.
  - right. eexists. reflexivity.
Qed.

Lemma validation_scores_untouched kw epoch st :
  st_loss (validation_scores kw epoch st) = st_loss st /\
  st_disk (validation_scores kw epoch st) = st_disk st /\
  st_training_log (validation_scores kw epoch st) = st_training_log st /\
  st_optimizer (validation_scores kw epoch st) = st_optimizer st /\
  st_lr_scheduler (validation_scores kw epoch st) = st_lr_scheduler st /\
  errors (st_validation_log (validation_scores kw epoch st)) =
    errors (st_validation_log st).
Proof.
  unfold validation_scores. destruct (kw_score_functions kw); repeat split.
Qed.

(** An epoch that runs through had its [get_lr] and [step] return and no
    validation batch, and passed its checkpoint test. *)
Lemma epoch_body_runs_through lf lfg kw epoch st st' :
  epoch_body lf lfg kw epoch st = Continue st' ->
  exists tp,
    training_phase lfg kw epoch st = Continue tp /\
    load_batches F (p_test_loader (st_self st)) epoch = [] /\
    save_checkpoint kw epoch (validation_scores kw epoch tp) = Continue st'.
Proof.
  intros Hbody.
  destruct (epoch_body_cases lf lfg kw epoch st)
    as [(e & _ & H) | [(st1 & e & _ & H) |
        [(tp & l & _ & _ & H) | (tp & Ht & Hempty & H)]]];
    rewrite H in Hbody; try discriminate.
  exists tp. repeat split; assumption.
Qed.

(** It leaves the state its validation scores left, with at most one file
    more. *)
Lemma epoch_body_continue lf lfg kw epoch st st' :
  epoch_body lf lfg kw epoch st = Continue st' ->
  exists tp,
    training_phase lfg kw epoch st = Continue tp /\
    load_batches F (p_test_loader (st_self st)) epoch = [] /\
    (st' = validation_scores kw epoch tp \/
     exists f,
       st' = set_disk (validation_scores kw epoch tp)
               (st_disk (validation_scores kw epoch tp) ++ [f])).
Proof.
  intros Hbody.
  destruct (epoch_body_runs_through lf lfg kw epoch st st' Hbody)
    as (tp & Ht & Hempty & Hsave).
  exists tp. split; [exact Ht|]. split; [exact Hempty|].
  destruct (save_checkpoint_state kw epoch (validation_scores kw epoch tp))
    as [H | (f & H)]; rewrite Hsave in H; cbn [flow_state] in H.
  - left. exact H.
  - right. exists f. exact H.
Qed.

Lemma epoch_body_continue_frame lf lfg kw epoch st st' :
  epoch_body lf lfg kw epoch st = Continue st' ->
  loop_frame (st_self st) (st_self st').
Proof.
  intros Hbody.
  pose proof (training_phase_frame lfg kw epoch st) as Hframe.
  destruct (epoch_body_continue lf lfg kw epoch st st' Hbody)
    as (tp & Ht & _ & [-> | (f & ->)]);
    rewrite Ht in Hframe; cbn [flow_state] in Hframe;
    (eapply loop_frame_trans;
     [exact Hframe | apply validation_scores_frame]).
Qed.

(** An epoch that raises has written no file. *)
Lemma epoch_body_raised_disk lf lfg kw epoch st st' e :
  epoch_body lf lfg kw epoch st = Raised st' e ->
  st_disk st' = st_disk st.
Proof.
  destruct (training_phase_untouched lfg kw epoch st) as [_ Hd].
  destruct (epoch_body_cases lf lfg kw epoch st)
    as [(e' & _ & ->) | [(st1 & e' & Ht & ->) |
        [(tp & l & Ht & _ & ->) | (tp & Ht & _ & ->)]]];
    try rewrite Ht in Hd; cbn [flow_state] in Hd.
  - intros H. injection H as <- _. reflexivity.
  - intros H. injection H as <- _. exact Hd.
  - intros H. injection H as <- _. exact Hd.
  - destruct (validation_scores_untouched kw epoch tp) as (_ & Hd' & _).
    destruct (save_checkpoint_cases kw epoch (validation_scores kw epoch tp))
      as [H | [(e' & H & _) | (cfg & ck & _ & _ & _ & _ & H)]];
      rewrite H; intros Heq; try discriminate.
    injection Heq as <- _. congruence.
Qed.

(** The scheduler [train] builds stays the scheduler. *)
Lemma epoch_body_lambda_scheduled lf lfg kw epoch st :
  lambda_scheduled st ->
  lambda_scheduled (flow_state (epoch_body lf lfg kw epoch st)).
Proof.
  revert epoch st.
  apply (epoch_body_invariant (@lambda_scheduled T F)).
  - intros epoch st H.
    destruct (training_phase_lambda lfg kw epoch st H) as (tp & -> & Htp).
    exact Htp.
  - intros st l H. exact H.
  - intros epoch st (b & f & k & H).
    destruct (validation_scores_untouched kw epoch st)
      as (_ & _ & _ & _ & Hsc & _).
    exists b, f, k. rewrite Hsc. exact H.
  - intros epoch st H.
    destruct (save_checkpoint_state kw epoch st) as [-> | (f & ->)]; exact H.
Qed.

(** The exceptions the loop raises under that scheduler. *)
Lemma epoch_body_raises lf lfg kw epoch st st' e :
  lambda_scheduled st ->
  epoch_body lf lfg kw epoch st = Raised st' e -> loop_exception e.
Proof.
  intros Hsched.
  destruct (get_lr_lambda st Hsched) as (l & Hl).
  destruct (training_phase_lambda lfg kw epoch st Hsched) as (tp & Htp & _).
  destruct (epoch_body_cases lf lfg kw epoch st)
    as [(e' & H & _) | [(st1 & e' & H & _) |
        [(tp' & l' & _ & _ & ->) | (tp' & _ & _ & ->)]]];
    try congruence.
  - intros Heq. injection Heq as _ <-. left. eexists. reflexivity.
  - destruct (save_checkpoint_cases kw epoch (validation_scores kw epoch tp'))
      as [H | [(e' & H & He') | (cfg & ck & _ & _ & _ & _ & H)]];
      rewrite H; intros Heq; try discriminate.
    injection Heq as _ <-. right. exact He'.
Qed.

Lemma epoch_loop_raises lf lfg kw epochs :
  forall st st' e,
    lambda_scheduled st ->
    epoch_loop lf lfg kw epochs st = Raised st' e -> loop_exception e.
Proof.
  induction epochs as [|epoch rest IH]; intros st st' e Hsched;
    cbn [epoch_loop].
  - discriminate.
  - pose proof (epoch_body_lambda_scheduled lf lfg kw epoch st Hsched) as Hnext.
    destruct (epoch_body lf lfg kw epoch st) as [st1|st1 e1] eqn:Hbody;
      cbn [and_then flow_state] in *.
    + apply IH. exact Hnext.
    + intros Heq. injection Heq as _ <-.
      apply (epoch_body_raises lf lfg kw epoch st st1 e1 Hsched Hbody).
Qed.

(** [range(n)] starts at 0 when [n] is positive. *)
Lemma py_range_positive n :
  1 <= n -> py_range n = 0 :: map Z.of_nat (seq 1 (Z.to_nat n - 1)).
Proof.
  intros Hn. unfold py_range.
  replace (Z.to_nat n) with (S (Z.to_nat n - 1)) at 1 by lia.
  reflexivity.
Qed.

Lemma py_range_nonpositive n : n <= 0 -> py_range n = [].
Proof.
  intros Hn. unfold py_range.
  replace (Z.to_nat n) with 0%nat by lia. reflexivity.
Qed.

(** *** How [train] reaches the epoch loop *)

(** The set-up returns unless the optimizer's constructor raises; the loop
    then starts in [initial_state]. *)
Lemma configure_optimizer_cases p kw :
  match opt_raises (optimizer_class kw) (m_params (p_model p))
          (configured_lr kw) with
  | Some e => configure_optimizer p kw = Raise e
  | None =>
      exists os,
        configure_optimizer p kw = Ok os /\
        loop_start p os = initial_state p kw
  end.
Proof.
  unfold configure_optimizer, initial_state, optimizer_class,
    construct_optimizer.
  destruct (kw_optim kw) as [cls|];
    destruct (opt_raises _ _ _); cbn [bind]; try reflexivity;
    eexists; split; reflexivity.
Qed.

Lemma configure_optimizer_returns p kw os :
  configure_optimizer p kw = Ok os ->
  loop_start p os = initial_state p kw.
Proof.
  intros Hos. pose proof (configure_optimizer_cases p kw) as H.
  destruct (opt_raises _ _ _); [congruence|].
  destruct H as (os' & Hos' & Hstart). congruence.
Qed.

Lemma train_with_keywords p kw n lf lfg os :
  kw_num_epochs kw = Some n ->
  configure_optimizer (set_epochs p n) kw = Ok os ->
  kw_loss_func kw = Some lf ->
  kw_loss_func_with_grad kw = Some lfg ->
  train p kw =
    match epoch_loop lf lfg kw (py_range n) (initial_state (set_epochs p n) kw) with
    | Continue st => Returned st (st_training_log st, st_validation_log st)
    | Raised st e => Aborted st e
    end.
Proof.
  intros Hn Hos Hlf Hlfg. unfold train. rewrite Hn. cbv zeta.
  rewrite Hos, Hlf, Hlfg, (configure_optimizer_returns _ _ _ Hos).
  reflexivity.
Qed.

Lemma train_enters_loop p kw st :
  loop_state (train p kw) = Some st ->
  exists n lf lfg,
    kw_num_epochs kw = Some n /\
    kw_loss_func kw = Some lf /\
    kw_loss_func_with_grad kw = Some lfg /\
    st = flow_state
           (epoch_loop lf lfg kw (py_range n) (initial_state (set_epochs p n) kw)).
Proof.
  unfold train.
  destruct (kw_num_epochs kw) as [n|]; [|discriminate]. cbv zeta.
  destruct (configure_optimizer (set_epochs p n) kw) as [os|e] eqn:Hos;
    [|discriminate].
  rewrite (configure_optimizer_returns _ _ _ Hos).
  destruct (kw_loss_func kw) as [lf|]; [|discriminate].
  destruct (kw_loss_func_with_grad kw) as [lfg|]; [|discriminate].
  intros H. exists n, lf, lfg. repeat split.
  destruct (epoch_loop lf lfg kw (py_range n) (initial_state (set_epochs p n) kw));
    cbn in H; injection H as <-; reflexivity.
Qed.

(** A run that does not enter the loop raises and leaves the pipeline
    object as it was but for [epochs]. *)
Lemma train_stops_before_loop p kw :
  loop_state (train p kw) = None ->
  raised (train p kw) <> None /\
  written_files (train p kw) = [] /\
  (final_self (train p kw) = p \/
   exists n, final_self (train p kw) = set_epochs p n).
Proof.
  unfold train.
  destruct (kw_num_epochs kw) as [n|];
    [|intros _; repeat split; [discriminate | left; reflexivity]].
  cbv zeta.
  destruct (configure_optimizer (set_epochs p n) kw) as [os|e];
    [|intros _; repeat split; [discriminate | right; exists n; reflexivity]].
  destruct (kw_loss_func kw) as [lf|];
    [|intros _; repeat split; [discriminate | right; exists n; reflexivity]].
  destruct (kw_loss_func_with_grad kw) as [lfg|];
    [|intros _; repeat split; [discriminate | right; exists n; reflexivity]].
  destruct (epoch_loop _ _ _ _ _); discriminate.
Qed.

(** A property that holds when the loop starts and that every statement
    group of an epoch preserves holds in the state [train] leaves. *)
Lemma train_invariant (I : State F -> Prop) p kw :
  (forall n, I (initial_state (set_epochs p n) kw)) ->
  (forall lfg epoch st,
     I st -> I (flow_state (training_phase lfg kw epoch st))) ->
  (forall st l, I st -> I (set_loss st l)) ->
  (forall epoch st, I st -> I (validation_scores kw epoch st)) ->
  (forall epoch st, I st -> I (flow_state (save_checkpoint kw epoch st))) ->
  forall st, loop_state (train p kw) = Some st -> I st.
Proof.
  intros Hinit Htrain Hloss Hscores Hsave st Hst.
  destruct (train_enters_loop p kw st Hst) as (n & lf & lfg & _ & _ & _ & ->).
  apply (epoch_loop_invariant I); [|apply Hinit].
  apply (epoch_body_invariant I); auto.
Qed.

(** Without [lr_scheduler] the loop starts, and stays, with a [LambdaLR]
    scheduler. *)
Lemma initial_state_lambda_scheduled p kw :
  kw_lr_scheduler kw = None -> lambda_scheduled (initial_state p kw).
Proof.
  intros Hs. unfold initial_state, attach_scheduler. rewrite Hs.
  destruct (kw_step_size_func kw); eexists _, _, _; reflexivity.
Qed.

(** *** Required keyword arguments *)

(** With the scheduler [train] builds, what a run raises once it is in the
    loop is one of the loop's own three exceptions. *)
Lemma train_loop_exceptions p kw st e :
  kw_lr_scheduler kw = None ->
  train p kw = Aborted st e -> loop_exception e.
Proof.
  intros Hs. unfold train.
  destruct (kw_num_epochs kw) as [n|]; [|discriminate]. cbv zeta.
  destruct (configure_optimizer (set_epochs p n) kw) as [os|e'] eqn:Hos;
    [|discriminate].
  rewrite (configure_optimizer_returns _ _ _ Hos).
  destruct (kw_loss_func kw) as [lf|]; [|discriminate].
  destruct (kw_loss_func_with_grad kw) as [lfg|]; [|discriminate].
  destruct (epoch_loop lf lfg kw (py_range n) (initial_state (set_epochs p n) kw))
    as [st'|st' e'] eqn:Hloop; [discriminate|].
  intros H. injection H as _ <-.
  apply (epoch_loop_raises lf lfg kw (py_range n) _ st' e'
           (initial_state_lambda_scheduled (set_epochs p n) kw Hs) Hloop).
Qed.

(** C4, amended: without [num_epochs], [train] fails at once with the first
    assertion.  With [num_epochs] and without one of the loss functions, it
    fails before the epoch loop, with the model and both writers untouched:
    with the [AssertionError] of the second assertion if the optimizer
    set-up that stands between the two assertions returns, and with the
    exception of that set-up otherwise.  With all three keywords present
    neither assertion fires. *)
Theorem train_keyword_checks p kw :
  (kw_num_epochs kw = None ->
   train p kw = SetupFailed p (AssertionError "Provide num_epochs in **kwargs")) /\
  (forall n,
     kw_num_epochs kw = Some n ->
     kw_loss_func kw = None \/ kw_loss_func_with_grad kw = None ->
     loop_state (train p kw) = None /\
     p_model (final_self (train p kw)) = p_model p /\
     p_train_writer (final_self (train p kw)) = p_train_writer p /\
     p_valid_writer (final_self (train p kw)) = p_valid_writer p /\
     match configure_optimizer (set_epochs p n) kw with
     | Ok _ =>
         raised (train p kw) =
           Some (AssertionError
             "loss_func and loss_func_with_grad must be present in **kwargs")
     | Raise e => raised (train p kw) = Some e
     end) /\
  (~ missing_required kw ->
   forall p' e, train p kw <> SetupFailed p' e).
Proof.
  unfold missing_required, train. split; [|split].
  - intros ->. reflexivity.
  - intros n Hn Hmissing. rewrite Hn. cbv zeta.
    destruct (configure_optimizer (set_epochs p n) kw);
      [|repeat split; reflexivity].
    destruct (kw_loss_func kw) as [lf|]; [|repeat split; reflexivity].
    destruct (kw_loss_func_with_grad kw) as [lfg|];
      [|repeat split; reflexivity].
    destruct Hmissing; discriminate.
  - intros Hpresent p' e.
    destruct (kw_num_epochs kw) as [n|]; [|tauto]. cbv zeta.
    destruct (configure_optimizer (set_epochs p n) kw); [|discriminate].
    destruct (kw_loss_func kw) as [lf|]; [|tauto].
    destruct (kw_loss_func_with_grad kw) as [lfg|]; [|tauto].
    destruct (epoch_loop _ _ _ _ _); discriminate.
Qed.

(** *** The frame of [train] *)

Lemma epoch_loop_frame lf lfg kw epochs st :
  loop_frame (st_self st) (st_self (flow_state (epoch_loop lf lfg kw epochs st))).
Proof.
  apply (epoch_loop_invariant
           (fun st' => loop_frame (st_self st) (st_self st'))).
  - apply (epoch_body_invariant
             (fun st' => loop_frame (st_self st) (st_self st'))).
    + intros epoch st' H. eapply loop_frame_trans; [exact H|].
      apply training_phase_frame.
    + intros st' l H. exact H.
    + intros epoch st' H. eapply loop_frame_trans; [exact H|].
      apply validation_scores_frame.
    + intros epoch st' H.
      destruct (save_checkpoint_state kw epoch st') as [-> | (f & ->)]; exact H.
  - apply loop_frame_refl.
Qed.

(** C9, amended: whatever the keyword arguments, and whether [train]
    returns or raises, the attributes [name], [batch_size], [root_dir],
    [image_data_file], [preprocessor], [args], [device], [train_loader] and
    [test_loader] of the pipeline object are the same at exit as at entry;
    [epochs] is the one attribute [train] rebinds, to [num_epochs] whenever
    that keyword is supplied.  (The model and the two summary writers are
    the objects it mutates.) *)
Theorem train_frame p kw :
  same_frame p (final_self (train p kw)) /\
  p_epochs (final_self (train p kw)) =
    match kw_num_epochs kw with
    | Some n => Some n
    | None => p_epochs p
    end.
Proof.
  unfold train.
  destruct (kw_num_epochs kw) as [n|]; [|split; [apply same_frame_refl|reflexivity]].
  cbv zeta.
  destruct (configure_optimizer (set_epochs p n) kw) as [os|e] eqn:Hos;
    [|split; [apply same_frame_set_epochs|reflexivity]].
  rewrite (configure_optimizer_returns _ _ _ Hos).
  destruct (kw_loss_func kw) as [lf|];
    [|split; [apply same_frame_set_epochs|reflexivity]].
  destruct (kw_loss_func_with_grad kw) as [lfg|];
    [|split; [apply same_frame_set_epochs|reflexivity]].
  pose proof (epoch_loop_frame lf lfg kw (py_range n)
                (initial_state (set_epochs p n) kw)) as [Hframe Hepochs].
  destruct (epoch_loop lf lfg kw (py_range n) (initial_state (set_epochs p n) kw));
    cbn [final_self flow_state] in *.
  - split; [|exact Hepochs].
    eapply same_frame_trans; [apply (same_frame_set_epochs p n)|exact Hframe].
  - split; [|exact Hepochs].
    eapply same_frame_trans; [apply (same_frame_set_epochs p n)|exact Hframe].
Qed.

(** *** The validation log *)

(** No entry ever reaches [validation_log["errors"]]. *)
Lemma validation_errors_never_recorded p kw st :
  loop_state (train p kw) = Some st ->
  errors (st_validation_log st) = [].
Proof.
  apply (train_invariant (fun st => errors (st_validation_log st) = [])).
  - reflexivity.
  - intros lfg epoch st' H.
    rewrite (proj1 (training_phase_untouched lfg kw epoch st')). exact H.
  - intros st' l H. exact H.
  - intros epoch st' H.
    destruct (validation_scores_untouched kw epoch st')
      as (_ & _ & _ & _ & _ & ->).
    exact H.
  - intros epoch st' H.
    destruct (save_checkpoint_state kw epoch st') as [-> | (f & ->)]; exact H.
Qed.

(** If the first epoch cannot run through, [train] does not return, and
    no file is written. *)
Lemma first_epoch_decides p kw n :
  kw_num_epochs kw = Some n ->
  1 <= n ->
  (forall lf lfg st',
     epoch_body lf lfg kw 0 (initial_state (set_epochs p n) kw) <>
     Continue st') ->
  raised (train p kw) <> None /\ written_files (train p kw) = [].
Proof.
  intros Hn Hpos Hfirst. unfold train. rewrite Hn. cbv zeta.
  destruct (configure_optimizer (set_epochs p n) kw) as [os|e] eqn:Hos;
    [|split; [discriminate | reflexivity]].
  rewrite (configure_optimizer_returns _ _ _ Hos).
  destruct (kw_loss_func kw) as [lf|]; [|split; [discriminate | reflexivity]].
  destruct (kw_loss_func_with_grad kw) as [lfg|];
    [|split; [discriminate | reflexivity]].
  rewrite (py_range_positive n Hpos). cbn [epoch_loop].
  destruct (epoch_body lf lfg kw 0 (initial_state (set_epochs p n) kw))
    as [st1|st1 e] eqn:Hbody.
  - exfalso. apply (Hfirst lf lfg st1). exact Hbody.
  - cbn [and_then raised written_files]. split; [discriminate|].
    rewrite (epoch_body_raised_disk lf lfg kw 0 _ st1 e Hbody). reflexivity.
Qed.

(** Every run of at least one epoch whose validation loader yields a batch
    stops in its first epoch: it does not return and writes no file. *)
Lemma train_stops_in_validation p kw n :
  kw_num_epochs kw = Some n ->
  1 <= n ->
  load_batches F (p_test_loader p) 0 <> [] ->
  raised (train p kw) <> None /\ written_files (train p kw) = [].
Proof.
  intros Hn Hpos Hbatches.
  apply (first_epoch_decides p kw n Hn Hpos).
  intros lf lfg st' Hbody.
  destruct (epoch_body_runs_through lf lfg kw 0 _ st' Hbody)
    as (tp & _ & Hempty & _).
  apply Hbatches. exact Hempty.
Qed.

(** When the optimizer set-up returns and the scheduler is the one [train]
    builds, such a run is aborted by the first validation batch of the first
    epoch: the validation log is still empty and nothing has been saved. *)
Lemma train_aborts_in_validation p kw n lf lfg os :
  kw_num_epochs kw = Some n ->
  1 <= n ->
  configure_optimizer (set_epochs p n) kw = Ok os ->
  kw_lr_scheduler kw = None ->
  kw_loss_func kw = Some lf ->
  kw_loss_func_with_grad kw = Some lfg ->
  load_batches F (p_test_loader p) 0 <> [] ->
  exists st,
    train p kw =
      Aborted st (AttributeError "'dict' object has no attribute 'append'") /\
    st_validation_log st = empty_log /\
    st_disk st = [].
Proof.
  intros Hn Hpos Hos Hs Hlf Hlfg Hbatches.
  rewrite (train_with_keywords p kw n lf lfg os Hn Hos Hlf Hlfg).
  rewrite (py_range_positive n Hpos). cbn [epoch_loop].
  pose proof (initial_state_lambda_scheduled (set_epochs p n) kw Hs) as Hsched.
  destruct (get_lr_lambda _ Hsched) as (l & Hl).
  destruct (training_phase_lambda lfg kw 0 _ Hsched) as (tp & Htp & _).
  destruct (epoch_body_validation lf lfg kw 0
              (initial_state (set_epochs p n) kw) l tp Hl Htp Hbatches)
    as (l' & ->).
  cbn [and_then]. eexists. split; [reflexivity|].
  destruct (training_phase_untouched lfg kw 0 (initial_state (set_epochs p n) kw))
    as (Hv & Hd).
  rewrite Htp in Hv, Hd. cbn [flow_state] in Hv, Hd.
  split; [exact Hv | exact Hd].
Qed.

(** *** The learning rate *)

(** Without [lr_scheduler] and [step_size_func], the scheduler is
    [LambdaLR(optimizer, lambda e: lr)]: its factor is [lr], its base rate
    is [lr], hence the group's rate is [lr * lr], when the loop starts and
    in every state of the loop. *)
Lemma fallback_initial_rate p kw :
  kw_lr_scheduler kw = None ->
  kw_step_size_func kw = None ->
  o_lr (st_optimizer (initial_state p kw)) =
    Qmult (configured_lr kw) (configured_lr kw) /\
  st_lr_scheduler (initial_state p kw) =
    LambdaLR (configured_lr kw) (fun _ => configured_lr kw) 0.
Proof.
  intros Hs Hf. unfold initial_state, attach_scheduler. rewrite Hs, Hf.
  split; reflexivity.
Qed.

Lemma fallback_rate p kw st :
  kw_lr_scheduler kw = None ->
  kw_step_size_func kw = None ->
  loop_state (train p kw) = Some st ->
  o_lr (st_optimizer st) = Qmult (configured_lr kw) (configured_lr kw).
Proof.
  intros Hs Hf Hst.
  cut (o_lr (st_optimizer st) = Qmult (configured_lr kw) (configured_lr kw) /\
       exists k, st_lr_scheduler st =
                   LambdaLR (configured_lr kw) (fun _ => configured_lr kw) k).
  { intros [H _]. exact H. }
  revert st Hst.
  apply (train_invariant
    (fun st =>
       o_lr (st_optimizer st) = Qmult (configured_lr kw) (configured_lr kw) /\
       exists k, st_lr_scheduler st =
                   LambdaLR (configured_lr kw) (fun _ => configured_lr kw) k)).
  - intros n.
    destruct (fallback_initial_rate (set_epochs p n) kw Hs Hf) as [Hlr Hsched].
    split; [exact Hlr | exists 0; exact Hsched].
  - intros lfg epoch st [_ (k & Hsched)].
    destruct (training_phase_rate lfg kw epoch st _ _ _ Hsched)
      as (tp & -> & Hsched' & Hlr').
    cbn [flow_state].
    split; [exact Hlr' | exists (k + 1); exact Hsched'].
  - intros st l H. exact H.
  - intros epoch st H.
    destruct (validation_scores_untouched kw epoch st)
      as (_ & _ & _ & Ho & Hsc & _).
    rewrite Ho, Hsc. exact H.
  - intros epoch st H.
    destruct (save_checkpoint_state kw epoch st) as [-> | (f & ->)]; exact H.
Qed.

(** [lr * lr] is [lr] only for the rates 0 and 1. *)
Lemma squared_rate_is_rate (lr : Q) :
  (lr * lr == lr)%Q <-> (lr == 0)%Q \/ (lr == 1)%Q.
Proof.
  split.
  - intros H.
    assert (H0 : (lr * (lr - 1) == 0)%Q).
    { transitivity (lr * lr - lr)%Q; [ring|]. rewrite H. ring. }
    apply Qmult_integral in H0. destruct H0 as [H0|H0]; [left; exact H0|].
    right. transitivity ((lr - 1) + 1)%Q; [ring|]. rewrite H0. reflexivity.
  - intros [H|H]; rewrite H; reflexivity.
Qed.

(** *** The training log *)

Lemma training_log_steps_zero p kw st :
  loop_state (train p kw) = Some st ->
  Forall (fun entry => e_step entry = 0) (errors (st_training_log st)).
Proof.
  apply (train_invariant
    (fun st => Forall (fun entry => e_step entry = 0) (errors (st_training_log st)))).
  - intros n. constructor.
  - intros lfg epoch st' H.
    destruct (training_phase_errors lfg kw epoch st') as (losses & _ & ->).
    apply Forall_app. split; [exact H|].
    apply Forall_forall. intros entry Hin.
    apply in_map_iff in Hin. destruct Hin as (l & <- & _). reflexivity.
  - intros st' l H. exact H.
  - intros epoch st' H.
    destruct (validation_scores_untouched kw epoch st') as (_ & _ & -> & _).
    exact H.
  - intros epoch st' H.
    destruct (save_checkpoint_state kw epoch st') as [-> | (f & ->)]; exact H.
Qed.

Lemma StronglySorted_le_app (l1 l2 : list Z) :
  StronglySorted Z.le l1 ->
  StronglySorted Z.le l2 ->
  (forall x y, In x l1 -> In y l2 -> x <= y) ->
  StronglySorted Z.le (l1 ++ l2).
Proof.
  induction l1 as [|a l1 IH]; intros H1 H2 Hle; cbn [app].
  - exact H2.
  - inversion H1 as [|? ? Hs Hall]; subst.
    constructor.
    + apply IH; [exact Hs | exact H2 |].
      intros x y Hx Hy. apply Hle; [right; exact Hx | exact Hy].
    + apply Forall_app. split; [exact Hall|].
      apply Forall_forall. intros y Hy. apply Hle; [left; reflexivity | exact Hy].
Qed.

Lemma StronglySorted_le_repeat (e : Z) (A : Type) (l : list A) :
  StronglySorted Z.le (map (fun _ => e) l).
Proof.
  induction l as [|a l IH]; cbn [map]; constructor; [exact IH|].
  apply Forall_forall. intros y Hy.
  apply in_map_iff in Hy. destruct Hy as (_ & <- & _). lia.
Qed.

Lemma py_range_sorted n : StronglySorted Z.le (py_range n).
Proof.
  unfold py_range. generalize 0%nat as a.
  induction (Z.to_nat n) as [|k IH]; intros a; cbn [seq map]; constructor.
  - apply IH.
  - apply Forall_forall. intros y Hy.
    apply in_map_iff in Hy. destruct Hy as (i & <- & Hi).
    apply in_seq in Hi. lia.
Qed.

(** One epoch appends records stamped with its own index: if the log was
    sorted by epoch and bounded by the epoch's index, it stays sorted and is
    bounded by that index afterwards. *)
Lemma epoch_body_epochs_sorted lf lfg kw epoch st bound :
  bound <= epoch ->
  StronglySorted Z.le (map e_epoch (errors (st_training_log st))) ->
  Forall (fun entry => e_epoch entry <= bound) (errors (st_training_log st)) ->
  let st' := flow_state (epoch_body lf lfg kw epoch st) in
  StronglySorted Z.le (map e_epoch (errors (st_training_log st'))) /\
  Forall (fun entry => e_epoch entry <= epoch) (errors (st_training_log st')).
Proof.
  intros Hbound Hsorted Hall. cbv zeta.
  apply (epoch_body_triple
    (fun st => StronglySorted Z.le (map e_epoch (errors (st_training_log st))) /\
               Forall (fun entry => e_epoch entry <= bound)
                 (errors (st_training_log st)))
    (fun st => StronglySorted Z.le (map e_epoch (errors (st_training_log st))) /\
               Forall (fun entry => e_epoch entry <= epoch)
                 (errors (st_training_log st)))).
  - intros st0 [Hs Ha]. split; [exact Hs|].
    eapply Forall_impl; [|exact Ha]. cbv beta. intros entry Hentry. lia.
  - intros st0 [Hs Ha].
    destruct (training_phase_errors lfg kw epoch st0) as (losses & _ & ->).
    split.
    + rewrite map_app, map_map. cbn [e_epoch].
      apply StronglySorted_le_app; [exact Hs | apply StronglySorted_le_repeat |].
      intros x y Hx Hy.
      apply in_map_iff in Hx. destruct Hx as (entry & <- & Hentry).
      apply in_map_iff in Hy. destruct Hy as (_ & <- & _).
      rewrite Forall_forall in Ha. specialize (Ha entry Hentry). lia.
    + apply Forall_app. split.
      * eapply Forall_impl; [|exact Ha]. cbv beta. intros entry Hentry. lia.
      * apply Forall_forall. intros entry Hentry.
        apply in_map_iff in Hentry. destruct Hentry as (l & <- & _).
        cbn [e_epoch]. lia.
  - intros st0 l H. exact H.
  - intros st0 H.
    destruct (validation_scores_untouched kw epoch st0) as (_ & _ & -> & _).
    exact H.
  - intros st0 H.
    destruct (save_checkpoint_state kw epoch st0) as [-> | (f & ->)]; exact H.
  - split; [exact Hsorted | exact Hall].
Qed.

Lemma epoch_loop_epochs_sorted lf lfg kw epochs :
  forall st bound,
    StronglySorted Z.le epochs ->
    Forall (fun epoch => bound <= epoch) epochs ->
    StronglySorted Z.le (map e_epoch (errors (st_training_log st))) ->
    Forall (fun entry => e_epoch entry <= bound) (errors (st_training_log st)) ->
    StronglySorted Z.le
      (map e_epoch
         (errors (st_training_log (flow_state (epoch_loop lf lfg kw epochs st))))).
Proof.
  induction epochs as [|epoch rest IH]; intros st bound Hes Hbound Hsorted Hall;
    cbn [epoch_loop].
  - exact Hsorted.
  - inversion Hes as [|? ? Hrest Hle]; subst.
    inversion Hbound as [|? ? Hb Hbrest]; subst.
    destruct (epoch_body_epochs_sorted lf lfg kw epoch st bound Hb Hsorted Hall)
      as [Hsorted' Hall'].
    destruct (epoch_body lf lfg kw epoch st) as [st'|st' e]; cbn [and_then].
    + apply (IH st' epoch Hrest Hle Hsorted' Hall').
    + exact Hsorted'.
Qed.

(** The epoch indices of the training log never decrease. *)
Lemma training_log_epochs_sorted p kw st :
  loop_state (train p kw) = Some st ->
  StronglySorted Z.le (map e_epoch (errors (st_training_log st))).
Proof.
  intros Hst.
  destruct (train_enters_loop p kw st Hst) as (n & lf & lfg & _ & _ & _ & ->).
  apply (epoch_loop_epochs_sorted lf lfg kw (py_range n) _ 0).
  - apply py_range_sorted.
  - apply Forall_forall. intros epoch Hin. unfold py_range in Hin.
    apply in_map_iff in Hin. destruct Hin as (i & <- & _). lia.
  - constructor.
  - constructor.
Qed.

(** *** Checkpoints *)

Lemma written_files_loop_state p kw :
  written_files (train p kw) =
    match loop_state (train p kw) with
    | Some st => st_disk st
    | None => []
    end.
Proof. destruct (train p kw); reflexivity. Qed.

(** Without [save_checkpoints] nothing is ever written. *)
Lemma no_checkpoint_unless_configured p kw :
  kw_save_checkpoints kw = None ->
  written_files (train p kw) = [].
Proof.
  intros Hnone. rewrite written_files_loop_state.
  destruct (loop_state (train p kw)) as [st|] eqn:Hst; [|reflexivity].
  revert st Hst.
  apply (train_invariant (fun st => st_disk st = [])).
  - reflexivity.
  - intros lfg epoch st H.
    rewrite (proj2 (training_phase_untouched lfg kw epoch st)). exact H.
  - intros st l H. exact H.
  - intros epoch st H.
    destruct (validation_scores_untouched kw epoch st) as (_ & -> & _). exact H.
  - intros epoch st H. unfold save_checkpoint. rewrite Hnone. exact H.
Qed.

(** Passing the checkpoint test: the interval is not zero, and a file is
    written exactly when the epoch is a multiple of it. *)
Lemma save_checkpoint_continue kw epoch st st' cfg :
  kw_save_checkpoints kw = Some cfg ->
  save_checkpoint kw epoch st = Continue st' ->
  cc_epoch cfg <> 0 /\
  epochs_saved (st_disk st') =
    epochs_saved (st_disk st) ++
    (if epoch mod cc_epoch cfg =? 0 then [epoch] else []).
Proof.
  intros Hcfg. unfold save_checkpoint. rewrite Hcfg.
  destruct (cc_epoch cfg =? 0) eqn:Hzero; [discriminate|].
  apply Z.eqb_neq in Hzero.
  destruct (epoch mod cc_epoch cfg =? 0).
  - destruct (st_loss st) as [loss|]; [|discriminate].
    intros H. injection H as <-. split; [exact Hzero|].
    cbn [st_disk set_disk]. unfold epochs_saved. rewrite map_app. reflexivity.
  - intros H. injection H as <-. split; [exact Hzero|].
    rewrite app_nil_r. reflexivity.
Qed.

(** An epoch that runs through has saved a checkpoint exactly when its
    index is a multiple of the interval. *)
Lemma epoch_body_continue_saved lf lfg kw epoch st st' cfg :
  kw_save_checkpoints kw = Some cfg ->
  epoch_body lf lfg kw epoch st = Continue st' ->
  cc_epoch cfg <> 0 /\
  epochs_saved (st_disk st') =
    epochs_saved (st_disk st) ++
    (if epoch mod cc_epoch cfg =? 0 then [epoch] else []).
Proof.
  intros Hcfg Hbody.
  destruct (epoch_body_runs_through lf lfg kw epoch st st' Hbody)
    as (tp & Ht & _ & Hsave).
  destruct (save_checkpoint_continue kw epoch _ st' cfg Hcfg Hsave)
    as [Hk Hsaved].
  split; [exact Hk|]. rewrite Hsaved.
  destruct (validation_scores_untouched kw epoch tp) as (_ & -> & _).
  destruct (training_phase_untouched lfg kw epoch st) as [_ Hd].
  rewrite Ht in Hd. cbn [flow_state] in Hd. rewrite Hd. reflexivity.
Qed.

Lemma epoch_loop_continue_saved lf lfg kw cfg epochs :
  kw_save_checkpoints kw = Some cfg ->
  forall st st',
    epoch_loop lf lfg kw epochs st = Continue st' ->
    epochs_saved (st_disk st') =
      epochs_saved (st_disk st) ++
      filter (fun e => e mod cc_epoch cfg =? 0) epochs.
Proof.
  intros Hcfg.
  induction epochs as [|epoch rest IH]; intros st st' Hloop;
    cbn [epoch_loop filter] in *.
  - injection Hloop as <-. rewrite app_nil_r. reflexivity.
  - destruct (epoch_body lf lfg kw epoch st) as [st1|st1 e] eqn:Hbody;
      cbn [and_then] in Hloop; [|discriminate].
    destruct (epoch_body_continue_saved lf lfg kw epoch st st1 cfg Hcfg Hbody)
      as [_ Hsaved].
    rewrite (IH st1 st' Hloop), Hsaved, <- app_assoc.
    destruct (epoch mod cc_epoch cfg =? 0); reflexivity.
Qed.

(** Under the scheduler [train] builds, an epoch with no validation batch
    and at least one training batch runs through when the interval is not
    zero. *)
Lemma epoch_body_checkpoint lf lfg kw epoch st cfg :
  lambda_scheduled st ->
  kw_save_checkpoints kw = Some cfg ->
  cc_epoch cfg <> 0 ->
  load_batches F (p_test_loader (st_self st)) epoch = [] ->
  load_batches F (p_train_loader (st_self st)) epoch <> [] ->
  exists st', epoch_body lf lfg kw epoch st = Continue st'.
Proof.
  intros Hsched Hcfg Hk Htest Htrain.
  destruct (get_lr_lambda st Hsched) as (l & Hl).
  destruct (training_phase_lambda lfg kw epoch st Hsched) as (tp & Htp & _).
  rewrite (epoch_body_no_validation lf lfg kw epoch st l tp Hl Htp Htest).
  pose proof (training_phase_loss lfg kw epoch st (or_intror Htrain)) as Hloss.
  rewrite Htp in Hloss. cbn [flow_state] in Hloss.
  destruct (validation_scores_untouched kw epoch tp) as (Hloss' & _).
  unfold save_checkpoint. rewrite Hcfg.
  destruct (cc_epoch cfg =? 0) eqn:Hzero; [apply Z.eqb_eq in Hzero; contradiction|].
  destruct (epoch mod cc_epoch cfg =? 0); [|eexists; reflexivity].
  rewrite Hloss'.
  destruct (st_loss tp) as [loss|]; [|congruence].
  eexists. reflexivity.
Qed.

Lemma epoch_loop_checkpoints lf lfg kw cfg epochs :
  kw_save_checkpoints kw = Some cfg ->
  cc_epoch cfg <> 0 ->
  forall st,
    lambda_scheduled st ->
    (forall e, In e epochs ->
               load_batches F (p_test_loader (st_self st)) e = []) ->
    (forall e, In e epochs ->
               load_batches F (p_train_loader (st_self st)) e <> []) ->
    exists st', epoch_loop lf lfg kw epochs st = Continue st'.
Proof.
  intros Hcfg Hk.
  induction epochs as [|epoch rest IH]; intros st Hsched Htest Htrain;
    cbn [epoch_loop].
  - exists st. reflexivity.
  - destruct (epoch_body_checkpoint lf lfg kw epoch st cfg Hsched Hcfg Hk
                (Htest epoch (or_introl eq_refl))
                (Htrain epoch (or_introl eq_refl)))
      as (st1 & Hbody).
    pose proof (epoch_body_lambda_scheduled lf lfg kw epoch st Hsched) as Hnext.
    destruct (epoch_body_continue_frame lf lfg kw epoch st st1 Hbody)
      as [Hframe _].
    rewrite Hbody in *. cbn [and_then flow_state] in *.
    apply (IH st1 Hnext).
    + intros e Hin. rewrite (same_frame_test_loader _ _ Hframe).
      apply Htest. right. exact Hin.
    + intros e Hin. rewrite (same_frame_train_loader _ _ Hframe).
      apply Htrain. right. exact Hin.
Qed.

(** The cadence on the runs that get that far: when the optimizer set-up
    returns and the scheduler is the one [train] builds, with a non-zero
    interval, a validation loader that yields nothing and a training loader
    that always yields something, [train] returns and has saved exactly the
    epochs that are multiples of the interval. *)
Lemma checkpoints_when_validation_is_empty p kw n lf lfg cfg os :
  kw_num_epochs kw = Some n ->
  configure_optimizer (set_epochs p n) kw = Ok os ->
  kw_lr_scheduler kw = None ->
  kw_loss_func kw = Some lf ->
  kw_loss_func_with_grad kw = Some lfg ->
  kw_save_checkpoints kw = Some cfg ->
  cc_epoch cfg <> 0 ->
  (forall e, In e (py_range n) -> load_batches F (p_test_loader p) e = []) ->
  (forall e, In e (py_range n) -> load_batches F (p_train_loader p) e <> []) ->
  raised (train p kw) = None /\
  epochs_saved (written_files (train p kw)) =
    filter (fun e => e mod cc_epoch cfg =? 0) (py_range n).
Proof.
  intros Hn Hos Hs Hlf Hlfg Hcfg Hk Htest Htrain.
  rewrite (train_with_keywords p kw n lf lfg os Hn Hos Hlf Hlfg).
  destruct (epoch_loop_checkpoints lf lfg kw cfg (py_range n) Hcfg Hk
              (initial_state (set_epochs p n) kw)
              (initial_state_lambda_scheduled (set_epochs p n) kw Hs)
              Htest Htrain)
    as (st' & Hloop).
  rewrite Hloop. split; [reflexivity|]. cbn [written_files].
  rewrite (epoch_loop_continue_saved lf lfg kw cfg (py_range n) Hcfg _ st' Hloop).
  reflexivity.
Qed.

(** The checkpoint test on its own: with a zero interval it raises whatever
    the epoch, and with a non-zero interval it never raises that error. *)
Lemma save_checkpoint_zero_interval kw epoch st cfg :
  kw_save_checkpoints kw = Some cfg ->
  cc_epoch cfg = 0 ->
  save_checkpoint kw epoch st =
    Raised st (ZeroDivisionError "integer modulo by zero").
Proof.
  intros Hcfg Hzero. unfold save_checkpoint. rewrite Hcfg, Hzero. reflexivity.
Qed.

Lemma save_checkpoint_nonzero_interval kw epoch st cfg st' msg :
  kw_save_checkpoints kw = Some cfg ->
  cc_epoch cfg <> 0 ->
  save_checkpoint kw epoch st <> Raised st' (ZeroDivisionError msg).
Proof.
  intros Hcfg Hk. unfold save_checkpoint. rewrite Hcfg.
  destruct (cc_epoch cfg =? 0) eqn:Hzero; [apply Z.eqb_eq in Hzero; contradiction|].
  destruct (epoch mod cc_epoch cfg =? 0); [|discriminate].
  destruct (st_loss st); discriminate.
Qed.

(** With a zero interval the first epoch that reaches its checkpoint test
    raises there: so it is when the optimizer set-up returns, the scheduler
    is the one [train] builds and the validation loader yields nothing. *)
Lemma zero_interval_raises p kw n lf lfg cfg os :
  kw_num_epochs kw = Some n ->
  1 <= n ->
  configure_optimizer (set_epochs p n) kw = Ok os ->
  kw_lr_scheduler kw = None ->
  kw_loss_func kw = Some lf ->
  kw_loss_func_with_grad kw = Some lfg ->
  kw_save_checkpoints kw = Some cfg ->
  cc_epoch cfg = 0 ->
  load_batches F (p_test_loader p) 0 = [] ->
  exists st,
    train p kw = Aborted st (ZeroDivisionError "integer modulo by zero") /\
    st_disk st = [].
Proof.
  intros Hn Hpos Hos Hs Hlf Hlfg Hcfg Hzero Htest.
  rewrite (train_with_keywords p kw n lf lfg os Hn Hos Hlf Hlfg).
  rewrite (py_range_positive n Hpos). cbn [epoch_loop].
  pose proof (initial_state_lambda_scheduled (set_epochs p n) kw Hs) as Hsched.
  destruct (get_lr_lambda _ Hsched) as (l & Hl).
  destruct (training_phase_lambda lfg kw 0 _ Hsched) as (tp & Htp & _).
  rewrite (epoch_body_no_validation lf lfg kw 0
             (initial_state (set_epochs p n) kw) l tp Hl Htp Htest).
  rewrite (save_checkpoint_zero_interval kw 0 _ cfg Hcfg Hzero).
  cbn [and_then]. eexists. split; [reflexivity|].
  destruct (validation_scores_untouched kw 0 tp) as (_ & -> & _).
  destruct (training_phase_untouched lfg kw 0 (initial_state (set_epochs p n) kw))
    as (_ & Hd).
  rewrite Htp in Hd. exact Hd.
Qed.

(** *** The accumulators and the scores *)

Lemma train_batches_ys lfg epoch step batches :
  forall st,
    st_ys (train_batches lfg epoch step st batches) =
      st_ys st ++ flat_map (fun b => as_float F (snd b)) batches.
Proof.
  induction batches as [|b rest IH]; intros st; cbn [train_batches flat_map].
  - rewrite app_nil_r. reflexivity.
  - rewrite IH. cbn. rewrite <- app_assoc. reflexivity.
Qed.

(** After a training phase that runs through [ys] holds the labels of the
    epoch's training batches, and the training scores of the epoch are the
    score functions' values on the accumulators. *)
Lemma training_phase_accumulators lfg kw epoch st tp :
  training_phase lfg kw epoch st = Continue tp ->
  st_ys tp =
    flat_map (fun b => as_float F (snd b))
      (load_batches F (p_train_loader (st_self st)) epoch) /\
  scores (st_training_log tp) =
    scores (st_training_log st) ++
    match kw_score_functions kw with
    | Some score_functions =>
        [{| s_epoch := epoch;
            s_scores := scores_of score_functions (st_ys tp) (st_y_preds tp) |}]
    | None => []
    end.
Proof.
  pose proof (train_batches_ys lfg epoch 0
                (load_batches F (p_train_loader (st_self st)) epoch)
                (model_mode (set_accumulators st [] []) true)) as Hys.
  destruct (train_batches_untouched lfg epoch 0
              (load_batches F (p_train_loader (st_self st)) epoch)
              (model_mode (set_accumulators st [] []) true))
    as (_ & _ & _ & _ & Hsc).
  name_batch_loop lfg epoch st st2.
  destruct (scheduler_step (st_lr_scheduler st2) (st_optimizer st2)) as [os|e];
    [|discriminate].
  intros H. injection H as <-.
  cbn in Hys, Hsc. unfold training_scores.
  destruct (kw_score_functions kw) as [score_functions|]; cbn.
  - rewrite run_scores_values, Hys, Hsc. split; reflexivity.
  - rewrite Hys, Hsc, app_nil_r. split; reflexivity.
Qed.

(** The validation scores are computed on the accumulators as they stand,
    and appended to the validation log. *)
Lemma validation_scores_values kw epoch st :
  scores (st_validation_log (validation_scores kw epoch st)) =
    scores (st_validation_log st) ++
    match kw_score_functions kw with
    | Some score_functions =>
        [{| s_epoch := epoch;
            s_scores := scores_of score_functions (st_ys st) (st_y_preds st) |}]
    | None => []
    end.
Proof.
  unfold validation_scores.
  destruct (kw_score_functions kw) as [score_functions|]; cbn.
  - rewrite run_scores_values. reflexivity.
  - rewrite app_nil_r. reflexivity.
Qed.

(** An epoch that runs through adds the same entry to the scores of both
    logs: its validation scores are computed on the accumulators the
    training phase filled, which nothing has reset. *)
Lemma epoch_body_scores lf lfg kw epoch st st' :
  epoch_body lf lfg kw epoch st = Continue st' ->
  exists tp,
    training_phase lfg kw epoch st = Continue tp /\
    let entry :=
      match kw_score_functions kw with
      | Some score_functions =>
          [{| s_epoch := epoch;
              s_scores := scores_of score_functions (st_ys tp) (st_y_preds tp) |}]
      | None => []
      end in
    scores (st_training_log st') = scores (st_training_log st) ++ entry /\
    scores (st_validation_log st') = scores (st_validation_log st) ++ entry.
Proof.
  intros Hbody.
  destruct (epoch_body_continue lf lfg kw epoch st st' Hbody)
    as (tp & Ht & _ & Hst').
  exists tp. split; [exact Ht|]. cbv zeta.
  destruct (training_phase_accumulators lfg kw epoch st tp Ht) as [_ Htrain].
  pose proof (training_phase_untouched lfg kw epoch st) as [Hvlog _].
  rewrite Ht in Hvlog. cbn [flow_state] in Hvlog.
  pose proof (validation_scores_values kw epoch tp) as Hvalid.
  destruct (validation_scores_untouched kw epoch tp) as (_ & _ & Htlog & _).
  set (vs := validation_scores kw epoch tp) in *. clearbody vs.
  assert (Hlogs : st_training_log st' = st_training_log vs /\
                  st_validation_log st' = st_validation_log vs)
    by (destruct Hst' as [-> | (f & ->)]; split; reflexivity).
  destruct Hlogs as [-> ->].
  rewrite Htlog, Htrain, Hvalid, Hvlog. split; reflexivity.
Qed.

Lemma epoch_loop_scores lf lfg kw epochs :
  forall st st',
    epoch_loop lf lfg kw epochs st = Continue st' ->
    scores (st_validation_log st) = scores (st_training_log st) ->
    scores (st_validation_log st') = scores (st_training_log st').
Proof.
  induction epochs as [|epoch rest IH]; intros st st' Hloop Heq;
    cbn [epoch_loop] in Hloop.
  - injection Hloop as <-. exact Heq.
  - destruct (epoch_body lf lfg kw epoch st) as [st1|st1 e] eqn:Hbody;
      cbn [and_then] in Hloop; [|discriminate].
    apply (IH st1 st' Hloop).
    destruct (epoch_body_scores lf lfg kw epoch st st1 Hbody)
      as (tp & _ & Hsc).
    cbv zeta in Hsc. destruct Hsc as [-> ->].
    rewrite Heq. reflexivity.
Qed.

(** Whenever [train] returns, the scores of the validation log are those of
    the training log, entry by entry. *)
Lemma returned_scores_coincide p kw st logs :
  train p kw = Returned st logs ->
  scores (snd logs) = scores (fst logs).
Proof.
  unfold train.
  destruct (kw_num_epochs kw) as [n|]; [|discriminate]. cbv zeta.
  destruct (configure_optimizer (set_epochs p n) kw) as [os|e] eqn:Hos;
    [|discriminate].
  rewrite (configure_optimizer_returns _ _ _ Hos).
  destruct (kw_loss_func kw) as [lf|]; [|discriminate].
  destruct (kw_loss_func_with_grad kw) as [lfg|]; [|discriminate].
  destruct (epoch_loop lf lfg kw (py_range n) (initial_state (set_epochs p n) kw))
    as [st'|st' e] eqn:Hloop; [|discriminate].
  intros H. injection H as <- <-. cbn [fst snd].
  apply (epoch_loop_scores lf lfg kw (py_range n) _ st' Hloop). reflexivity.
Qed.

End PipelineFacts.

(** ** Runs of the model *)

(** The keyword checks on four calls: no keyword at all; [num_epochs]
    only; [num_epochs] and a negative rate, which the optimizer rejects
    before the second assertion is reached; and all three required
    keywords. *)
Lemma train_keyword_checks_witness :
  train (Toy.pipeline [Toy.batch1] [Toy.batch2]) Toy.no_kwargs =
    SetupFailed (Toy.pipeline [Toy.batch1] [Toy.batch2])
      (AssertionError "Provide num_epochs in **kwargs") /\
  raised (train (Toy.pipeline [Toy.batch1] [Toy.batch2]) (Toy.only_num_epochs 3)) =
    Some (AssertionError
      "loss_func and loss_func_with_grad must be present in **kwargs") /\
  raised (train (Toy.pipeline [Toy.batch1] [Toy.batch2]) (Cases.negative_rate 3)) =
    Some (ValueError "Invalid learning rate") /\
  (forall p' e,
     train (Toy.pipeline [Toy.batch1] [Toy.batch2]) (Toy.kwargs 1 None None)
     <> SetupFailed p' e).
Proof.
  split; [|split; [|split]].
  - apply (proj1 (train_keyword_checks Toy.tensors Toy.framework
                    (Toy.pipeline [Toy.batch1] [Toy.batch2]) Toy.no_kwargs)).
    reflexivity.
  - exact (proj2 (proj2 (proj2 (proj2
             (proj1 (proj2 (train_keyword_checks Toy.tensors Toy.framework
                              (Toy.pipeline [Toy.batch1] [Toy.batch2])
                              (Toy.only_num_epochs 3)))
                3 eq_refl (or_introl eq_refl)))))).
  - exact (proj2 (proj2 (proj2 (proj2
             (proj1 (proj2 (train_keyword_checks Toy.tensors Toy.framework
                              (Toy.pipeline [Toy.batch1] [Toy.batch2])
                              (Cases.negative_rate 3)))
                3 eq_refl (or_introl eq_refl)))))).
  - apply (proj2 (proj2 (train_keyword_checks Toy.tensors Toy.framework
                           (Toy.pipeline [Toy.batch1] [Toy.batch2])
                           (Toy.kwargs 1 None None)))).
    intros [H|[H|H]]; discriminate H.
Defined.

(** C4, as stated, fails: a call with [num_epochs=3] and [lr=-1.0] lacks
    both loss functions, yet what it raises is not an [AssertionError]: the
    optimizer is constructed between the two assertions and rejects the
    rate. *)
Lemma train_optimizer_rejects_before_assertion :
  missing_required (Cases.negative_rate 3) /\
  raised (train (Toy.pipeline [Toy.batch1] [Toy.batch2]) (Cases.negative_rate 3)) =
    Some (ValueError "Invalid learning rate") /\
  forall msg,
    raised (train (Toy.pipeline [Toy.batch1] [Toy.batch2]) (Cases.negative_rate 3))
    <> Some (AssertionError msg).
Proof.
  split; [right; left; reflexivity|]. split; [reflexivity|].
  intros msg H. discriminate H.
Qed.

(** With all three keywords and the same rate the optimizer rejects it
    just the same, and no epoch runs. *)
Example train_negative_rate :
  raised (train Cases.training_only (Cases.kwargs_rate 2 (-1 # 1))) =
    Some (ValueError "Invalid learning rate") /\
  loop_state (train Cases.training_only (Cases.kwargs_rate 2 (-1 # 1))) = None.
Proof. split; reflexivity. Qed.

(** A caller's scheduler is asked for its rate at the top of every epoch,
    before the model is put in training mode: one that has no [get_lr]
    stops the run there, one that has it lets the run go on. *)
Example train_scheduler_without_get_lr :
  raised (train Cases.training_only (Cases.kwargs_scheduler 1 false)) =
    Some (AttributeError "object has no attribute 'get_lr'") /\
  option_map (fun st => List.length (errors (st_training_log st)))
    (loop_state (train Cases.training_only (Cases.kwargs_scheduler 1 false))) =
    Some 0%nat /\
  raised (train Cases.training_only (Cases.kwargs_scheduler 1 true)) = None.
Proof. repeat split; vm_compute; reflexivity. Qed.

Example train_without_keywords :
  train (Toy.pipeline [Toy.batch1] [Toy.batch2]) Toy.no_kwargs =
    SetupFailed (Toy.pipeline [Toy.batch1] [Toy.batch2])
      (AssertionError "Provide num_epochs in **kwargs").
Proof. reflexivity. Qed.

(** C2, at a failing input: one epoch over loaders that yield two batches
    each.  The claim has every validation batch's loss recorded in the
    validation log and both logs returned; the code raises [AttributeError]
    on the first validation batch, with nothing recorded, and returns
    nothing. *)
Theorem train_validation_loss_not_recorded :
  raised (train (Toy.pipeline [Toy.batch1; Toy.batch2] [Toy.batch1; Toy.batch2])
            (Toy.kwargs 1 None None))
    = Some (AttributeError "'dict' object has no attribute 'append'") /\
  option_map (fun st => errors (st_validation_log st))
    (loop_state (train (Toy.pipeline [Toy.batch1; Toy.batch2]
                          [Toy.batch1; Toy.batch2])
                   (Toy.kwargs 1 None None)))
    = Some [].
Proof. split; vm_compute; reflexivity. Qed.

(** C3, at a failing input: the default keywords, two epochs.  The claim
    has the optimizer run at the configured rate 0.001 in every epoch; the
    code runs it at 0.001 * 0.001, from the first epoch to the last. *)
Theorem fallback_rate_is_lr_squared :
  configured_lr (Toy.kwargs 2 None None) = (1 # 1000)%Q /\
  o_lr (st_optimizer
          (initial_state (Toy.pipeline [Toy.batch1; Toy.batch2] [])
             (Toy.kwargs 2 None None)))
    = (1 # 1000000)%Q /\
  option_map (fun st => o_lr (st_optimizer st))
    (loop_state (train (Toy.pipeline [Toy.batch1; Toy.batch2] [])
                   (Toy.kwargs 2 None None)))
    = Some (1 # 1000000)%Q /\
  ~ (1 # 1000000 == 1 # 1000)%Q.
Proof.
  split; [reflexivity|]. split; [reflexivity|].
  split; [vm_compute; reflexivity|].
  intros H. discriminate H.
Qed.

(** C5, at two failing inputs, interval 1, three epochs.  The claim has a
    checkpoint persisted at the end of epoch 0; over loaders that yield a
    batch the code raises in the validation loop of epoch 0 and writes
    nothing, and over loaders that yield no batch it raises on the unbound
    [loss] while building the checkpoint and writes nothing. *)
Theorem checkpoint_not_written_at_epoch_zero :
  0 mod 1 = 0 /\
  raised (train (Toy.pipeline [Toy.batch1] [Toy.batch1])
            (Toy.kwargs 3 None (Some {| cc_epoch := 1; cc_path := "ck.pt" |})))
    = Some (AttributeError "'dict' object has no attribute 'append'") /\
  written_files (train (Toy.pipeline [Toy.batch1] [Toy.batch1])
                   (Toy.kwargs 3 None (Some {| cc_epoch := 1; cc_path := "ck.pt" |})))
    = [] /\
  raised (train (Toy.pipeline [] [])
            (Toy.kwargs 3 None (Some {| cc_epoch := 1; cc_path := "ck.pt" |})))
    = Some (UnboundLocalError
        "cannot access local variable 'loss' where it is not associated with a value") /\
  written_files (train (Toy.pipeline [] [])
                   (Toy.kwargs 3 None (Some {| cc_epoch := 1; cc_path := "ck.pt" |})))
    = [].
Proof. repeat split; vm_compute; reflexivity. Qed.

(** C7, at a failing input: one epoch, loaders that yield two batches each,
    one score function.  The claim has the validation rows appended to the
    accumulators and the validation scores computed over both; the code
    raises before either: at the abort the accumulators hold the two
    training rows only and no validation score exists. *)
Theorem validation_rows_never_accumulated :
  raised (train (Toy.pipeline [Toy.batch1; Toy.batch2] [Toy.batch1; Toy.batch2])
            (Toy.kwargs 1 (Some [Toy.count_predictions]) None))
    = Some (AttributeError "'dict' object has no attribute 'append'") /\
  option_map (fun st => (st_ys st, List.length (st_y_preds st),
                         scores (st_validation_log st)))
    (loop_state (train (Toy.pipeline [Toy.batch1; Toy.batch2]
                          [Toy.batch1; Toy.batch2])
                   (Toy.kwargs 1 (Some [Toy.count_predictions]) None)))
    = Some ([2%Q; 6%Q], 2%nat, []).
Proof. split; vm_compute; reflexivity. Qed.

(** C8, at a failing input: two epochs over a training loader that yields
    two batches and a validation loader that yields none, so that the log
    is returned.  The claim has the step indices of an epoch strictly
    increasing; the code records step 0 for every batch.  So it does when
    the validation loader yields batches too, in the log it has built when
    the first epoch is aborted. *)
Theorem training_log_steps_repeat :
  raised (train (Toy.pipeline [Toy.batch1; Toy.batch2] []) (Toy.kwargs 2 None None))
    = None /\
  option_map
    (fun st => map (fun entry => (e_epoch entry, e_step entry))
                 (errors (st_training_log st)))
    (loop_state (train (Toy.pipeline [Toy.batch1; Toy.batch2] [])
                   (Toy.kwargs 2 None None)))
    = Some [(0, 0); (0, 0); (1, 0); (1, 0)] /\
  option_map
    (fun st => map (fun entry => (e_epoch entry, e_step entry))
                 (errors (st_training_log st)))
    (loop_state (train (Toy.pipeline [Toy.batch1; Toy.batch2]
                          [Toy.batch1; Toy.batch2])
                   (Toy.kwargs 2 None None)))
    = Some [(0, 0); (0, 0)].
Proof. repeat split; vm_compute; reflexivity. Qed.

(** C9, as stated, fails: a call with [num_epochs=0] runs no epoch and
    returns, yet the attribute [epochs] of the pipeline object, absent at
    entry, is 0 at exit. *)
Lemma train_rebinds_epochs :
  p_epochs (Toy.pipeline [Toy.batch1] [Toy.batch1]) = None /\
  p_epochs (final_self (train (Toy.pipeline [Toy.batch1] [Toy.batch1])
                          (Toy.kwargs 0 None None)))
    = Some 0 /\
  ~ unchanged_except_model
      (Toy.pipeline [Toy.batch1] [Toy.batch1])
      (final_self (train (Toy.pipeline [Toy.batch1] [Toy.batch1])
                     (Toy.kwargs 0 None None))).
Proof.
  split; [reflexivity|]. split; [reflexivity|].
  intros (_ & _ & _ & H). discriminate H.
Qed.

(** What else an ordinary call leaves changed on the pipeline object: the
    model is in evaluation mode, and the training writer has received the
    loss of the batch. *)
Example train_mutates_model_and_writers :
  m_training (p_model (Toy.pipeline [Toy.batch1] [])) = true /\
  m_training
    (p_model (final_self (train (Toy.pipeline [Toy.batch1] [])
                            (Toy.kwargs 1 None None))))
    = false /\
  sw_scalars (p_train_writer (Toy.pipeline [Toy.batch1] [])) = [] /\
  map fst
    (sw_scalars
       (p_train_writer (final_self (train (Toy.pipeline [Toy.batch1] [])
                                      (Toy.kwargs 1 None None)))))
    = ["loss"%string].
Proof. repeat split; vm_compute; reflexivity. Qed.

(** C10, at a failing input: interval 0, one epoch, loaders that yield a
    batch.  The claim has [train] raise the modulo-by-zero error at the end
    of the first epoch; the code raises [AttributeError] in the validation
    loop before it gets there.  Over a validation loader that yields
    nothing the error is the claimed one. *)
Theorem zero_interval_not_reached :
  raised (train (Toy.pipeline [Toy.batch1] [Toy.batch1])
            (Toy.kwargs 1 None (Some {| cc_epoch := 0; cc_path := "ck.pt" |})))
    = Some (AttributeError "'dict' object has no attribute 'append'") /\
  raised (train (Toy.pipeline [Toy.batch1] [])
            (Toy.kwargs 1 None (Some {| cc_epoch := 0; cc_path := "ck.pt" |})))
    = Some (ZeroDivisionError "integer modulo by zero").
Proof. split; vm_compute; reflexivity. Qed.

(** The general facts above, on runs of the toy pipeline. *)
Example toy_run_aborts_in_validation :
  exists st,
    train (Toy.pipeline [Toy.batch1] [Toy.batch2]) (Toy.kwargs 4 None None) =
      Aborted st (AttributeError "'dict' object has no attribute 'append'") /\
    st_validation_log st = empty_log /\
    st_disk st = [].
Proof.
  eapply (train_aborts_in_validation Toy.tensors Toy.framework
            (Toy.pipeline [Toy.batch1] [Toy.batch2]) (Toy.kwargs 4 None None)
            4 Toy.squared_error Toy.squared_error);
    try reflexivity; [lia | discriminate].
Qed.

Example toy_run_saves_multiples_of_three :
  epochs_saved
    (written_files
       (train (Toy.pipeline [Toy.batch1; Toy.batch2] [])
          (Toy.kwargs 7 None (Some {| cc_epoch := 3; cc_path := "ck.pt" |}))))
  = [0; 3; 6].
Proof.
  eapply (checkpoints_when_validation_is_empty Toy.tensors Toy.framework
            (Toy.pipeline [Toy.batch1; Toy.batch2] [])
            (Toy.kwargs 7 None (Some {| cc_epoch := 3; cc_path := "ck.pt" |}))
            7 Toy.squared_error Toy.squared_error
            {| cc_epoch := 3; cc_path := "ck.pt" |});
    try reflexivity; try discriminate; intros e _; discriminate.
Qed.

Example toy_run_zero_interval :
  exists st,
    train (Toy.pipeline [Toy.batch1] [])
      (Toy.kwargs 2 None (Some {| cc_epoch := 0; cc_path := "ck.pt" |})) =
      Aborted st (ZeroDivisionError "integer modulo by zero") /\
    st_disk st = [].
Proof.
  eapply (zero_interval_raises Toy.tensors Toy.framework
            (Toy.pipeline [Toy.batch1] [])
            (Toy.kwargs 2 None (Some {| cc_epoch := 0; cc_path := "ck.pt" |}))
            2 Toy.squared_error Toy.squared_error
            {| cc_epoch := 0; cc_path := "ck.pt" |});
    try reflexivity; lia.
Qed.

(** The cadence on a run that gets to its checkpoints: five epochs, interval
    2, a validation loader that yields nothing. *)
Example checkpoints_every_second_epoch :
  epochs_saved
    (written_files (train (Toy.pipeline [Toy.batch1] [])
                      (Toy.kwargs 5 None (Some {| cc_epoch := 2; cc_path := "ck.pt" |}))))
  = [0; 2; 4].
Proof. vm_compute. reflexivity. Qed.

(** Construction on the toy file system. *)
Example toy_pipeline_cannot_be_built :
  Pipeline_init Toy.framework Toy.file_system "toy" (fun _ => 0%Q) 1
    "images" "labels.csv" Toy.preprocessor tt
  = Raise (TypeError
      "__init__() missing 1 required positional argument: 'teacher_func'").
Proof. reflexivity. Qed.

(** * Further properties *)

(** ** DatasetMapper: indices, paths and labels *)

Section DatasetMapperMore.

Variable T : Tensors.
Implicit Types (dm : DatasetMapper T) (t : Table T).

Lemma iloc_below_range t i :
  i < - Z.of_nat (List.length t) ->
  iloc t i = Raise (IndexError "single positional indexer is out-of-bounds").
Proof.
  intros Hi. unfold iloc.
  replace (i <? 0) with true by (symmetry; apply Z.ltb_lt; lia).
  replace (0 <=? i + Z.of_nat (List.length t)) with false
    by (symmetry; apply Z.leb_gt; lia).
  reflexivity.
Qed.

(** X1: an index in [-N, 0) is accepted and counts from the end of the
    table: [__getitem__] returns for it what it returns for [idx + N]. *)
Theorem getitem_negative_index dm i :
  - DatasetMapper_len dm <= i < 0 ->
  DatasetMapper_getitem dm (PyInt i) =
    DatasetMapper_getitem dm (PyInt (i + DatasetMapper_len dm)).
Proof.
  intros Hi. unfold DatasetMapper_len in *.
  unfold DatasetMapper_getitem. cbv zeta. cbn [to_python_int].
  rewrite (iloc_negative T (dm_image_data_file dm) i Hi). reflexivity.
Qed.

(** X2: an index outside [-N, N) raises [IndexError]; the preprocessor and
    the teacher are not called, no item is returned. *)
Theorem getitem_out_of_bounds dm (idx : Index) :
  to_python_int idx < - DatasetMapper_len dm \/
  DatasetMapper_len dm <= to_python_int idx ->
  DatasetMapper_getitem dm idx =
    Raise (IndexError "single positional indexer is out-of-bounds").
Proof.
  intros Hidx. unfold DatasetMapper_len in Hidx.
  unfold DatasetMapper_getitem. cbv zeta.
  destruct Hidx as [Hlow | Hhigh].
  - rewrite (iloc_below_range _ _ Hlow). reflexivity.
  - rewrite (iloc_out_of_bounds T _ _ Hhigh). reflexivity.
Qed.

(** X3: when the image name of the row is absolute, the root directory
    plays no part: the preprocessor is given the name as it stands. *)
Theorem getitem_absolute_name dm (idx : Index) row :
  0 <= to_python_int idx < DatasetMapper_len dm ->
  nth_error (dm_image_data_file dm) (Z.to_nat (to_python_int idx)) = Some row ->
  PosixPath.startswith_sep (fst row) = true ->
  exists label,
    DatasetMapper_getitem dm idx = Ok (dm_preprocessor dm (fst row), label).
Proof.
  intros Hidx Hrow Habs. unfold DatasetMapper_len in Hidx.
  destruct (iloc_in_range T _ _ Hidx) as (row' & Hnth & Hloc).
  rewrite Hrow in Hnth. injection Hnth as <-.
  unfold DatasetMapper_getitem. cbv zeta. rewrite Hloc. cbn [bind].
  unfold PosixPath.join. rewrite Habs.
  destruct (dm_teacher_func dm); eexists; reflexivity.
Qed.

Lemma string_append_sep (a b : string) :
  ((a ++ String PosixPath.sep EmptyString) ++ b)%string =
  (a ++ String PosixPath.sep b)%string.
Proof.
  induction a as [|c a IH]; cbn [String.append]; [reflexivity|].
  rewrite IH. reflexivity.
Qed.

Lemma endswith_sep_append_sep (a : string) :
  PosixPath.endswith_sep (a ++ String PosixPath.sep EmptyString)%string = true.
Proof.
  induction a as [|c a IH]; cbn [String.append PosixPath.endswith_sep].
  - reflexivity.
  - destruct (a ++ String PosixPath.sep EmptyString)%string eqn:E.
    + destruct a; discriminate E.
    + exact IH.
Qed.

Lemma join_trailing_sep (a b : string) :
  PosixPath.is_empty a = false ->
  PosixPath.endswith_sep a = false ->
  PosixPath.join (a ++ String PosixPath.sep EmptyString)%string b =
    PosixPath.join a b.
Proof.
  intros Hne Hend. unfold PosixPath.join.
  destruct (PosixPath.startswith_sep b); [reflexivity|].
  rewrite endswith_sep_append_sep, orb_true_r.
  rewrite Hne, Hend. cbn [orb]. apply string_append_sep.
Qed.

(** X4: a root directory may be given with or without its final slash:
    two mappers that differ in this only return the same items and raise
    the same errors. *)
Theorem getitem_root_trailing_slash dm (idx : Index) :
  PosixPath.is_empty (dm_root_dir dm) = false ->
  PosixPath.endswith_sep (dm_root_dir dm) = false ->
  DatasetMapper_getitem
    (Build_DatasetMapper T
       (dm_root_dir dm ++ String PosixPath.sep EmptyString)%string
       (dm_image_data_file dm) (dm_preprocessor dm) (dm_teacher_func dm))
    idx
  = DatasetMapper_getitem dm idx.
Proof.
  intros Hne Hend. unfold DatasetMapper_getitem. cbv zeta.
  cbn [dm_root_dir dm_image_data_file dm_preprocessor dm_teacher_func].
  destruct (iloc (dm_image_data_file dm) (to_python_int idx)) as [row|e];
    cbn [bind]; [|reflexivity].
  rewrite (join_trailing_sep _ _ Hne Hend). reflexivity.
Qed.

Lemma iloc_same_names t1 t2 i :
  map fst t1 = map fst t2 ->
  match iloc t1 i, iloc t2 i with
  | Ok r1, Ok r2 => fst r1 = fst r2
  | Raise e1, Raise e2 => e1 = e2
  | _, _ => False
  end.
Proof.
  intros Hnames.
  assert (Hlen : List.length t1 = List.length t2).
  { rewrite <- (length_map fst t1), <- (length_map fst t2), Hnames. reflexivity. }
  unfold iloc. rewrite Hlen.
  set (pos := if i <? 0 then i + Z.of_nat (List.length t2) else i).
  destruct ((0 <=? pos) && (pos <? Z.of_nat (List.length t2))); [|reflexivity].
  assert (Hnth : option_map fst (nth_error t1 (Z.to_nat pos)) =
                 option_map fst (nth_error t2 (Z.to_nat pos))).
  { rewrite <- !nth_error_map, Hnames. reflexivity. }
  destruct (nth_error t1 (Z.to_nat pos)) as [r1|];
    destruct (nth_error t2 (Z.to_nat pos)) as [r2|]; cbn in Hnth;
    try discriminate; [|reflexivity].
  injection Hnth as Hfst. exact Hfst.
Qed.

(** X5: with a teacher function the label column of the table is never
    read: two mappers with the same teacher, root directory and
    preprocessor whose tables list the same image names return the same
    items, whatever labels the tables hold. *)
Theorem getitem_teacher_ignores_labels dm1 dm2 (idx : Index) teacher :
  dm_teacher_func dm1 = Some teacher ->
  dm_teacher_func dm2 = Some teacher ->
  dm_root_dir dm1 = dm_root_dir dm2 ->
  dm_preprocessor dm1 = dm_preprocessor dm2 ->
  map fst (dm_image_data_file dm1) = map fst (dm_image_data_file dm2) ->
  DatasetMapper_getitem dm1 idx = DatasetMapper_getitem dm2 idx.
Proof.
  intros Ht1 Ht2 Hroot Hpre Hnames.
  unfold DatasetMapper_getitem. cbv zeta. rewrite Ht1, Ht2, Hroot, Hpre.
  pose proof (iloc_same_names (dm_image_data_file dm1) (dm_image_data_file dm2)
                (to_python_int idx) Hnames) as Hrows.
  destruct (iloc (dm_image_data_file dm1) (to_python_int idx)) as [r1|e1];
    destruct (iloc (dm_image_data_file dm2) (to_python_int idx)) as [r2|e2];
    cbn [bind]; try contradiction.
  - rewrite Hrows. reflexivity.
  - rewrite Hrows. reflexivity.
Qed.

(** X6: a mapper built with all four arguments over an existing table file
    has as many items as the file has rows, and its item [i] is made from
    row [i] of the file: the image of the row's path under the root
    directory, with the teacher's label if a teacher was passed and the
    row's label otherwise. *)
Theorem mapper_of_file fs root_dir file pre teacher table :
  fs file = Some table ->
  exists dm,
    DatasetMapper_init fs root_dir file pre (Some teacher) = Ok dm /\
    DatasetMapper_len dm = Z.of_nat (List.length table) /\
    forall i row,
      nth_error table i = Some row ->
      DatasetMapper_getitem dm (PyInt (Z.of_nat i)) =
        Ok (pre (PosixPath.join root_dir (fst row)),
            match teacher with
            | Some teacher_func =>
                teacher_func (pre (PosixPath.join root_dir (fst row)))
            | None => snd row
            end).
Proof.
  intros Hfs.
  exists (Build_DatasetMapper T root_dir table pre teacher).
  split; [apply DatasetMapper_init_with_teacher; exact Hfs|].
  split; [reflexivity|].
  intros i row Hrow.
  assert (Hi : 0 <= Z.of_nat i < Z.of_nat (List.length table)).
  { split; [lia|]. apply Nat2Z.inj_lt. apply nth_error_Some. congruence. }
  destruct (iloc_in_range T table (Z.of_nat i) Hi) as (row' & Hnth & Hloc).
  rewrite Nat2Z.id, Hrow in Hnth. injection Hnth as <-.
  unfold DatasetMapper_getitem. cbv zeta.
  cbn [to_python_int dm_image_data_file dm_root_dir dm_preprocessor dm_teacher_func].
  rewrite Hloc. cbn [bind].
  destruct teacher; reflexivity.
Qed.

End DatasetMapperMore.

(** ** Pipeline.train: runs that return, runs that raise *)

Section PipelineMore.

Variable T : Tensors.
Variable F : Framework T.
Implicit Types (p : Pipeline F) (st : State F) (kw : TrainKwargs F).
Implicit Types (lf lfg : LossFn T) (epoch : Z).

(** A call that returns has passed the set-up and both assertions, and
    every epoch of its loop has run through. *)
Lemma train_returned_loop p kw st logs :
  train p kw = Returned st logs ->
  exists n lf lfg,
    kw_num_epochs kw = Some n /\
    kw_loss_func kw = Some lf /\
    kw_loss_func_with_grad kw = Some lfg /\
    epoch_loop lf lfg kw (py_range n) (initial_state (set_epochs p n) kw) =
      Continue st /\
    logs = (st_training_log st, st_validation_log st).
Proof.
  unfold train.
  destruct (kw_num_epochs kw) as [n|]; [|discriminate]. cbv zeta.
  destruct (configure_optimizer (set_epochs p n) kw) as [os|e] eqn:Hos;
    [|discriminate].
  rewrite (configure_optimizer_returns T F _ _ _ Hos).
  destruct (kw_loss_func kw) as [lf|]; [|discriminate].
  destruct (kw_loss_func_with_grad kw) as [lfg|]; [|discriminate].
  destruct (epoch_loop lf lfg kw (py_range n) (initial_state (set_epochs p n) kw))
    as [st'|st' e] eqn:Hloop; [|discriminate].
  intros H. injection H as <- <-.
  exists n, lf, lfg. repeat split. exact Hloop.
Qed.

Lemma returned_logs p kw st logs :
  train p kw = Returned st logs ->
  logs = (st_training_log st, st_validation_log st) /\
  loop_state (train p kw) = Some st.
Proof.
  intros H. rewrite H. split; [|reflexivity].
  destruct (train_returned_loop p kw st logs H) as (_ & _ & _ & _ & _ & _ & _ & ->).
  reflexivity.
Qed.

(** *** Zero or fewer epochs *)

(** X7: with [num_epochs <= 0] and both loss functions given no epoch
    runs.  If the optimizer set-up returns, [train] returns two empty logs,
    writes no file, and leaves the pipeline object as it was but for
    [epochs]; if the set-up raises, [train] raises its exception. *)
Theorem train_no_epochs p kw n lf lfg :
  kw_num_epochs kw = Some n ->
  kw_loss_func kw = Some lf ->
  kw_loss_func_with_grad kw = Some lfg ->
  n <= 0 ->
  match configure_optimizer (set_epochs p n) kw with
  | Ok _ =>
      exists st,
        train p kw = Returned st (empty_log, empty_log) /\
        st_self st = set_epochs p n /\
        st_disk st = []
  | Raise e => train p kw = SetupRaised (set_epochs p n) e
  end.
Proof.
  intros Hn Hlf Hlfg Hle.
  destruct (configure_optimizer (set_epochs p n) kw) as [os|e] eqn:Hos.
  - rewrite (train_with_keywords T F p kw n lf lfg os Hn Hos Hlf Hlfg).
    rewrite (py_range_nonpositive n Hle). cbn [epoch_loop].
    eexists. repeat split.
  - unfold train. rewrite Hn. cbv zeta. rewrite Hos. reflexivity.
Qed.

(** *** What a returned pair of logs holds *)

(** X8: whenever [train] returns, the validation log holds no loss record
    at all, and its score entries are those of the training log: the
    validation scores were computed on the training accumulators. *)
Theorem returned_validation_log p kw st logs :
  train p kw = Returned st logs ->
  errors (snd logs) = [] /\ scores (snd logs) = scores (fst logs).
Proof.
  intros Hret. split.
  - destruct (returned_logs p kw st logs Hret) as [-> Hst]. cbn [snd].
    apply (validation_errors_never_recorded T F p kw st Hst).
  - apply (returned_scores_coincide T F p kw st logs Hret).
Qed.

(** *** The first validation batch *)

(** An epoch whose validation loader yields a batch raises, with the
    validation log and the files as they were. *)
Lemma epoch_body_stops_in_validation lf lfg kw epoch st :
  load_batches F (p_test_loader (st_self st)) epoch <> [] ->
  exists st' e,
    epoch_body lf lfg kw epoch st = Raised st' e /\
    st_validation_log st' = st_validation_log st /\
    st_disk st' = st_disk st.
Proof.
  intros Hne.
  destruct (training_phase_untouched T F lfg kw epoch st) as [Hv Hd].
  destruct (epoch_body_cases T F lf lfg kw epoch st)
    as [(e & _ & ->) | [(st1 & e & Ht & ->) |
        [(tp & l & Ht & _ & ->) | (tp & _ & Hempty & _)]]];
    try rewrite Ht in Hv, Hd; cbn [flow_state] in Hv, Hd.
  - exists st, e. repeat split.
  - exists st1, e. repeat split; assumption.
  - eexists _, _. split; [reflexivity|]. split; assumption.
  - contradiction.
Qed.

(** X9: a run of at least one epoch whose validation loader yields a batch
    in the first epoch is lost: [train] raises, whatever the other keyword
    arguments, no file has been written and, if the loop was entered, the
    validation log is as empty as it was made. *)
Theorem validation_batch_stops_train p kw n :
  kw_num_epochs kw = Some n ->
  1 <= n ->
  load_batches F (p_test_loader p) 0 <> [] ->
  raised (train p kw) <> None /\
  written_files (train p kw) = [] /\
  forall st, loop_state (train p kw) = Some st ->
             st_validation_log st = empty_log.
Proof.
  intros Hn Hpos Hbatches. unfold train. rewrite Hn. cbv zeta.
  destruct (configure_optimizer (set_epochs p n) kw) as [os|e] eqn:Hos;
    [|repeat split; discriminate].
  rewrite (configure_optimizer_returns T F _ _ _ Hos).
  destruct (kw_loss_func kw) as [lf|]; [|repeat split; discriminate].
  destruct (kw_loss_func_with_grad kw) as [lfg|]; [|repeat split; discriminate].
  rewrite (py_range_positive n Hpos). cbn [epoch_loop].
  destruct (epoch_body_stops_in_validation lf lfg kw 0
              (initial_state (set_epochs p n) kw) Hbatches)
    as (st' & e & -> & Hv & Hd).
  cbn [and_then raised written_files loop_state].
  split; [discriminate|]. split; [exact Hd|].
  intros st H. injection H as <-. exact Hv.
Qed.

(** *** When [train] returns *)

Lemma epoch_loop_continue_no_validation lf lfg kw epochs :
  forall st st',
    epoch_loop lf lfg kw epochs st = Continue st' ->
    forall e, In e epochs ->
              load_batches F (p_test_loader (st_self st)) e = [].
Proof.
  induction epochs as [|epoch rest IH]; intros st st' Hloop e Hin;
    cbn [epoch_loop] in Hloop.
  - destruct Hin.
  - destruct (epoch_body lf lfg kw epoch st) as [st1|st1 e1] eqn:Hbody;
      cbn [and_then] in Hloop; [|discriminate].
    destruct (epoch_body_runs_through T F lf lfg kw epoch st st1 Hbody)
      as (tp & _ & Hempty & _).
    destruct Hin as [<- | Hin]; [exact Hempty|].
    destruct (epoch_body_continue_frame T F lf lfg kw epoch st st1 Hbody)
      as [Hframe _].
    rewrite <- (same_frame_test_loader T F _ _ Hframe).
    apply (IH st1 st' Hloop e Hin).
Qed.

(** X10: [train] returns only if the validation loader yields no batch in
    any of its epochs. *)
Theorem returned_without_validation_batch p kw n st logs :
  kw_num_epochs kw = Some n ->
  train p kw = Returned st logs ->
  forall e, In e (py_range n) -> load_batches F (p_test_loader p) e = [].
Proof.
  intros Hn Hret.
  destruct (train_returned_loop p kw st logs Hret)
    as (n' & lf & lfg & Hn' & _ & _ & Hloop & _).
  rewrite Hn in Hn'. injection Hn' as <-.
  apply (epoch_loop_continue_no_validation lf lfg kw (py_range n) _ st Hloop).
Qed.

(** *** The order of the training log *)

(** X11: in the training log [train] has built, when it returns or when
    it raises, the epoch indices never decrease from one record to the next
    and every record carries step 0. *)
Theorem training_log_order p kw st :
  loop_state (train p kw) = Some st ->
  StronglySorted Z.le (map e_epoch (errors (st_training_log st))) /\
  Forall (fun entry => e_step entry = 0) (errors (st_training_log st)).
Proof.
  intros Hst. split.
  - apply (training_log_epochs_sorted T F p kw st Hst).
  - apply (training_log_steps_zero T F p kw st Hst).
Qed.

(** *** The files written *)

(** X12: every file [train] writes, in a run that returns or raises, is
    written to the configured path, at an epoch that is a multiple of the
    configured non-zero interval; without [save_checkpoints] there is
    none. *)
Theorem files_only_at_multiples p kw :
  Forall
    (fun f =>
       exists cfg,
         kw_save_checkpoints kw = Some cfg /\
         fst f = cc_path cfg /\
         cc_epoch cfg <> 0 /\
         ck_epoch (snd f) mod cc_epoch cfg = 0)
    (written_files (train p kw)).
Proof.
  rewrite written_files_loop_state.
  destruct (loop_state (train p kw)) as [st|] eqn:Hst; [|constructor].
  revert st Hst.
  apply (train_invariant T F
    (fun st =>
       Forall
         (fun f =>
            exists cfg,
              kw_save_checkpoints kw = Some cfg /\
              fst f = cc_path cfg /\
              cc_epoch cfg <> 0 /\
              ck_epoch (snd f) mod cc_epoch cfg = 0)
         (st_disk st))).
  - intros n. constructor.
  - intros lfg epoch st H.
    rewrite (proj2 (training_phase_untouched T F lfg kw epoch st)). exact H.
  - intros st l H. exact H.
  - intros epoch st H.
    destruct (validation_scores_untouched T F kw epoch st) as (_ & -> & _).
    exact H.
  - intros epoch st H.
    destruct (save_checkpoint_cases T F kw epoch st)
      as [-> | [(e & -> & _) | (cfg & ck & Hcfg & Hck & Hmod & Hk & ->)]];
      cbn [flow_state]; try exact H.
    cbn [st_disk set_disk]. apply Forall_app. split; [exact H|].
    constructor; [|constructor].
    exists cfg. cbn [fst snd]. rewrite Hck. repeat split; assumption.
Qed.

(** X13: when [train] returns with [save_checkpoints] configured, it has
    saved a checkpoint at the end of exactly the epochs of
    [range(num_epochs)] that are multiples of the interval, in that order;
    and if an epoch was run at all, the interval is not zero. *)
Theorem checkpoint_cadence p kw n cfg st logs :
  kw_num_epochs kw = Some n ->
  kw_save_checkpoints kw = Some cfg ->
  train p kw = Returned st logs ->
  epochs_saved (st_disk st) =
    filter (fun e => e mod cc_epoch cfg =? 0) (py_range n) /\
  (1 <= n -> cc_epoch cfg <> 0).
Proof.
  intros Hn Hcfg Hret.
  destruct (train_returned_loop p kw st logs Hret)
    as (n' & lf & lfg & Hn' & _ & _ & Hloop & _).
  rewrite Hn in Hn'. injection Hn' as <-. split.
  - rewrite (epoch_loop_continue_saved T F lf lfg kw cfg (py_range n) Hcfg
               _ st Hloop).
    reflexivity.
  - intros Hpos. rewrite (py_range_positive n Hpos) in Hloop.
    cbn [epoch_loop] in Hloop.
    destruct (epoch_body lf lfg kw 0 (initial_state (set_epochs p n) kw))
      as [st1|st1 e] eqn:Hbody; cbn [and_then] in Hloop; [|discriminate].
    apply (epoch_body_continue_saved T F lf lfg kw 0 _ st1 cfg Hcfg Hbody).
Qed.

(** X14: with interval 0, a run of at least one epoch never returns, and
    writes no file: the first epoch that gets to its checkpoint test raises
    there. *)
Theorem zero_interval_never_returns p kw n cfg :
  kw_num_epochs kw = Some n ->
  1 <= n ->
  kw_save_checkpoints kw = Some cfg ->
  cc_epoch cfg = 0 ->
  raised (train p kw) <> None /\ written_files (train p kw) = [].
Proof.
  intros Hn Hpos Hcfg Hzero.
  apply (first_epoch_decides T F p kw n Hn Hpos).
  intros lf lfg st' Hbody.
  destruct (epoch_body_continue_saved T F lf lfg kw 0 _ st' cfg Hcfg Hbody)
    as [Hk _].
  apply Hk. exact Hzero.
Qed.

Lemma training_phase_no_batch lfg kw epoch st :
  load_batches F (p_train_loader (st_self st)) epoch = [] ->
  st_loss (flow_state (training_phase lfg kw epoch st)) = st_loss st /\
  m_params (p_model (st_self (flow_state (training_phase lfg kw epoch st)))) =
    m_params (p_model (st_self st)).
Proof.
  intros Hempty. rewrite training_phase_unfold. cbv zeta. rewrite Hempty.
  cbn [train_batches].
  destruct (scheduler_step _ _) as [os|e]; cbn [flow_state];
    [|split; reflexivity].
  unfold training_scores.
  destruct (kw_score_functions kw); split; reflexivity.
Qed.

(** X15: with [save_checkpoints] configured, a run of at least one epoch
    whose training loader yields no batch in the first epoch never returns,
    and writes no file: the checkpoint of epoch 0 would be built from a
    [loss] that no batch has bound. *)
Theorem checkpoint_of_empty_epoch_raises p kw n cfg :
  kw_num_epochs kw = Some n ->
  1 <= n ->
  kw_save_checkpoints kw = Some cfg ->
  load_batches F (p_train_loader p) 0 = [] ->
  raised (train p kw) <> None /\ written_files (train p kw) = [].
Proof.
  intros Hn Hpos Hcfg Htrain.
  apply (first_epoch_decides T F p kw n Hn Hpos).
  intros lf lfg st' Hbody.
  destruct (epoch_body_runs_through T F lf lfg kw 0 _ st' Hbody)
    as (tp & Ht & _ & Hsave).
  destruct (training_phase_no_batch lfg kw 0
              (initial_state (set_epochs p n) kw) Htrain) as (Hl & _).
  rewrite Ht in Hl. cbn [flow_state initial_state loop_start st_loss] in Hl.
  destruct (validation_scores_untouched T F kw 0 tp) as (Hl' & _).
  unfold save_checkpoint in Hsave. rewrite Hcfg in Hsave.
  destruct (cc_epoch cfg =? 0); [discriminate|].
  rewrite Zmod_0_l in Hsave. cbn [Z.eqb] in Hsave.
  rewrite Hl', Hl in Hsave. discriminate.
Qed.

(** *** Runs that return: the rate, the mode, the size of the logs *)

Lemma epoch_body_continue_schedule lf lfg kw epoch st st' base_lr lr_lambda k :
  epoch_body lf lfg kw epoch st = Continue st' ->
  st_lr_scheduler st = LambdaLR base_lr lr_lambda k ->
  st_lr_scheduler st' = LambdaLR base_lr lr_lambda (k + 1) /\
  o_lr (st_optimizer st') = Qmult base_lr (lr_lambda (k + 1)).
Proof.
  intros Hbody Hsched.
  destruct (training_phase_rate T F lfg kw epoch st _ _ _ Hsched)
    as (tp & Ht & Hs & Hr).
  destruct (epoch_body_continue T F lf lfg kw epoch st st' Hbody)
    as (tp' & Ht' & _ & Hst').
  rewrite Ht in Ht'. injection Ht' as <-.
  destruct (validation_scores_untouched T F kw epoch tp)
    as (_ & _ & _ & Ho & Hsc & _).
  destruct Hst' as [-> | (f & ->)];
    cbn [st_lr_scheduler st_optimizer set_disk];
    rewrite Ho, Hsc; split; assumption.
Qed.

Lemma epoch_loop_schedule lf lfg kw epochs :
  forall st st' base_lr lr_lambda k,
    epoch_loop lf lfg kw epochs st = Continue st' ->
    st_lr_scheduler st = LambdaLR base_lr lr_lambda k ->
    o_lr (st_optimizer st) = Qmult base_lr (lr_lambda k) ->
    o_lr (st_optimizer st') =
      Qmult base_lr (lr_lambda (k + Z.of_nat (List.length epochs))).
Proof.
  induction epochs as [|epoch rest IH];
    intros st st' base_lr lr_lambda k Hloop Hsched Hrate;
    cbn [epoch_loop List.length] in *.
  - injection Hloop as <-. rewrite Z.add_0_r. exact Hrate.
  - destruct (epoch_body lf lfg kw epoch st) as [st1|st1 e] eqn:Hbody;
      cbn [and_then] in Hloop; [|discriminate].
    destruct (epoch_body_continue_schedule lf lfg kw epoch st st1 _ _ _
                Hbody Hsched) as [Hsched1 Hrate1].
    rewrite (IH st1 st' base_lr lr_lambda (k + 1) Hloop Hsched1 Hrate1).
    replace (k + 1 + Z.of_nat (List.length rest))
      with (k + Z.of_nat (S (List.length rest))) by lia.
    reflexivity.
Qed.

(** X16: without a custom scheduler, when [train] returns after [n]
    epochs the optimizer's rate is [lr * f(n)], where [f] is
    [step_size_func] if given and the constant [lr] otherwise ([n] counted
    as 0 when negative): the schedule multiplies the configured rate, it
    does not replace it. *)
Theorem rate_after_epochs p kw n st logs :
  kw_lr_scheduler kw = None ->
  kw_num_epochs kw = Some n ->
  train p kw = Returned st logs ->
  o_lr (st_optimizer st) =
    Qmult (configured_lr kw)
      (match kw_step_size_func kw with
       | Some step_size_func => step_size_func
       | None => fun _ => configured_lr kw
       end (Z.max 0 n)).
Proof.
  intros Hs Hn Hret.
  destruct (train_returned_loop p kw st logs Hret)
    as (n' & lf & lfg & Hn' & _ & _ & Hloop & _).
  rewrite Hn in Hn'. injection Hn' as <-.
  replace (Z.max 0 n) with (0 + Z.of_nat (List.length (py_range n)))
    by (unfold py_range; rewrite length_map, length_seq; lia).
  apply (epoch_loop_schedule lf lfg kw (py_range n) _ st _ _ 0 Hloop);
    unfold initial_state, attach_scheduler; rewrite Hs;
    destruct (kw_step_size_func kw); reflexivity.
Qed.

Lemma epoch_body_continue_eval_mode lf lfg kw epoch st st' :
  epoch_body lf lfg kw epoch st = Continue st' ->
  m_training (p_model (st_self st')) = false.
Proof.
  intros Hbody.
  destruct (epoch_body_continue T F lf lfg kw epoch st st' Hbody)
    as (tp & Ht & _ & Hst').
  pose proof (training_phase_eval_mode T F lfg kw epoch st tp Ht) as Hmode.
  assert (Hvs : m_training (p_model (st_self (validation_scores kw epoch tp)))
                = false)
    by (unfold validation_scores; destruct (kw_score_functions kw); exact Hmode).
  destruct Hst' as [-> | (f & ->)]; exact Hvs.
Qed.

Lemma epoch_loop_eval_mode lf lfg kw epochs :
  forall st st',
    epochs <> [] \/ m_training (p_model (st_self st)) = false ->
    epoch_loop lf lfg kw epochs st = Continue st' ->
    m_training (p_model (st_self st')) = false.
Proof.
  induction epochs as [|epoch rest IH]; intros st st' Hstart Hloop;
    cbn [epoch_loop] in Hloop.
  - injection Hloop as <-. destruct Hstart as [H|H]; [congruence | exact H].
  - destruct (epoch_body lf lfg kw epoch st) as [st1|st1 e] eqn:Hbody;
      cbn [and_then] in Hloop; [|discriminate].
    apply (IH st1 st'); [|exact Hloop].
    right. apply (epoch_body_continue_eval_mode lf lfg kw epoch st st1 Hbody).
Qed.

(** X17: when a call that runs at least one epoch returns, the model is in
    evaluation mode. *)
Theorem train_leaves_eval_mode p kw n st logs :
  kw_num_epochs kw = Some n ->
  1 <= n ->
  train p kw = Returned st logs ->
  m_training (p_model (st_self st)) = false.
Proof.
  intros Hn Hpos Hret.
  destruct (train_returned_loop p kw st logs Hret)
    as (n' & lf & lfg & Hn' & _ & _ & Hloop & _).
  rewrite Hn in Hn'. injection Hn' as <-.
  apply (epoch_loop_eval_mode lf lfg kw (py_range n)
           (initial_state (set_epochs p n) kw) st); [|exact Hloop].
  left. rewrite (py_range_positive n Hpos). discriminate.
Qed.

Lemma epoch_loop_sizes lf lfg kw epochs :
  forall st st',
    epoch_loop lf lfg kw epochs st = Continue st' ->
    List.length (errors (st_training_log st')) =
      (List.length (errors (st_training_log st)) +
       list_sum
         (map (fun e =>
                 List.length (load_batches F (p_train_loader (st_self st)) e))
              epochs))%nat /\
    map s_epoch (scores (st_training_log st')) =
      map s_epoch (scores (st_training_log st)) ++
      match kw_score_functions kw with
      | Some _ => epochs
      | None => []
      end.
Proof.
  unfold list_sum.
  induction epochs as [|epoch rest IH]; intros st st' Hloop;
    cbn [epoch_loop map fold_right] in *.
  - injection Hloop as <-. split; [lia|].
    destruct (kw_score_functions kw); rewrite app_nil_r; reflexivity.
  - destruct (epoch_body lf lfg kw epoch st) as [st1|st1 e] eqn:Hbody;
      cbn [and_then] in Hloop; [|discriminate].
    destruct (IH st1 st' Hloop) as [Hlen Hsc].
    destruct (epoch_body_continue_frame T F lf lfg kw epoch st st1 Hbody)
      as [Hframe _].
    destruct (epoch_body_scores T F lf lfg kw epoch st st1 Hbody)
      as (tp0 & _ & Hsc1).
    cbv zeta in Hsc1. destruct Hsc1 as [Hsc1 _].
    assert (Herr1 : List.length (errors (st_training_log st1)) =
                    (List.length (errors (st_training_log st)) +
                     List.length
                       (load_batches F (p_train_loader (st_self st)) epoch))%nat).
    { destruct (training_phase_errors T F lfg kw epoch st)
        as (losses & Hl & Herr).
      destruct (epoch_body_continue T F lf lfg kw epoch st st1 Hbody)
        as (tp & Ht & _ & Hst1).
      rewrite Ht in Herr. cbn [flow_state] in Herr.
      destruct (validation_scores_untouched T F kw epoch tp)
        as (_ & _ & Htl & _).
      destruct Hst1 as [-> | (f & ->)]; cbn [st_training_log set_disk];
        rewrite Htl, Herr, length_app, length_map, Hl; reflexivity. }
    rewrite (same_frame_train_loader T F _ _ Hframe) in Hlen.
    split.
    + rewrite Hlen, Herr1. lia.
    + rewrite Hsc, Hsc1, map_app, <- app_assoc.
      destruct (kw_score_functions kw); reflexivity.
Qed.

(** X18: when [train] returns, the training log holds one loss record for
    each batch the training loader yielded in each epoch, and, if score
    functions were given, one score entry per epoch, for the epochs
    [0, 1, ..., num_epochs - 1] in this order (none otherwise). *)
Theorem returned_log_sizes p kw n st logs :
  kw_num_epochs kw = Some n ->
  train p kw = Returned st logs ->
  List.length (errors (fst logs)) =
    list_sum
      (map (fun e => List.length (load_batches F (p_train_loader p) e))
         (py_range n)) /\
  map s_epoch (scores (fst logs)) =
    match kw_score_functions kw with
    | Some _ => py_range n
    | None => []
    end.
Proof.
  intros Hn Hret.
  destruct (train_returned_loop p kw st logs Hret)
    as (n' & lf & lfg & Hn' & _ & _ & Hloop & ->).
  rewrite Hn in Hn'. injection Hn' as <-.
  destruct (epoch_loop_sizes lf lfg kw (py_range n) _ st Hloop) as [Hlen Hsc].
  cbn [fst]. split.
  - rewrite Hlen. reflexivity.
  - rewrite Hsc. reflexivity.
Qed.

(** *** The validation writer *)

Lemma train_batches_valid_writer lfg epoch step batches :
  forall st,
    p_valid_writer (st_self (train_batches lfg epoch step st batches)) =
      p_valid_writer (st_self st).
Proof.
  induction batches as [|b rest IH]; intros st; cbn [train_batches].
  - reflexivity.
  - rewrite IH. reflexivity.
Qed.

Lemma training_phase_valid_writer lfg kw epoch st :
  p_valid_writer (st_self (flow_state (training_phase lfg kw epoch st))) =
    p_valid_writer (st_self st).
Proof.
  pose proof (train_batches_valid_writer lfg epoch 0
                (load_batches F (p_train_loader (st_self st)) epoch)
                (model_mode (set_accumulators st [] []) true)) as Hw.
  rewrite training_phase_unfold. cbv zeta.
  set (st2 := train_batches lfg epoch 0
                (model_mode (set_accumulators st [] []) true)
                (load_batches F (p_train_loader (st_self st)) epoch)) in *.
  clearbody st2.
  destruct (scheduler_step (st_lr_scheduler st2) (st_optimizer st2)) as [os|e];
    cbn [flow_state]; [|exact Hw].
  unfold training_scores.
  destruct (kw_score_functions kw); cbn in *; exact Hw.
Qed.

Lemma run_scores_writer score_functions ys y_preds :
  forall acc : list (string * Score T) * SummaryWriter T,
    sw_scalars (snd (fold_left (score_step ys y_preds) score_functions acc)) =
      sw_scalars (snd acc) ++
      map (fun f => (sf_name f, ScoreValue T (sf_func f ys y_preds)))
        score_functions.
Proof.
  induction score_functions as [|f rest IH]; intros acc; cbn [fold_left map].
  - rewrite app_nil_r. reflexivity.
  - rewrite IH. unfold score_step at 1. cbn [snd add_scalar sw_scalars].
    rewrite <- app_assoc. reflexivity.
Qed.

(** X19: the validation writer never receives a loss.  Whatever the call,
    returning or raising, the scalars it has at exit are those it had at
    entry followed by score values only. *)
Theorem valid_writer_receives_scores_only p kw :
  exists added,
    sw_scalars (p_valid_writer (final_self (train p kw))) =
      sw_scalars (p_valid_writer p) ++ added /\
    Forall (fun s => exists v, snd s = ScoreValue T v) added.
Proof.
  destruct (loop_state (train p kw)) as [st|] eqn:Hst.
  - assert (Hfinal : final_self (train p kw) = st_self st)
      by (destruct (train p kw); cbn in *; congruence).
    rewrite Hfinal. clear Hfinal. revert st Hst.
    apply (train_invariant T F
      (fun st =>
         exists added,
           sw_scalars (p_valid_writer (st_self st)) =
             sw_scalars (p_valid_writer p) ++ added /\
           Forall (fun s => exists v, snd s = ScoreValue T v) added)).
    + intros n. exists []. split; [rewrite app_nil_r; reflexivity|constructor].
    + intros lfg epoch st H. rewrite training_phase_valid_writer. exact H.
    + intros st l H. exact H.
    + intros epoch st (added & Hw & Hall). unfold validation_scores.
      destruct (kw_score_functions kw) as [score_functions|];
        [|exists added; split; assumption].
      cbn [st_self set_validation_log set_self p_valid_writer set_valid_writer].
      unfold run_scores. rewrite run_scores_writer. cbn [snd].
      eexists (added ++ _). split; [rewrite Hw, <- app_assoc; reflexivity|].
      apply Forall_app. split; [exact Hall|].
      apply Forall_forall. intros s Hin.
      apply in_map_iff in Hin. destruct Hin as (f & <- & _).
      eexists. reflexivity.
    + intros epoch st H.
      destruct (save_checkpoint_state T F kw epoch st) as [-> | (f & ->)]; exact H.
  - exists []. split; [|constructor]. rewrite app_nil_r.
    destruct (train_stops_before_loop T F p kw Hst)
      as (_ & _ & [-> | (n & ->)]); reflexivity.
Qed.

End PipelineMore.

(** ** The further properties on runs of the toy instance *)

Lemma getitem_negative_index_witness :
  - DatasetMapper_len (Toy.mapper None) <= -1 < 0 /\
  DatasetMapper_getitem (Toy.mapper None) (PyInt (-1)) =
    DatasetMapper_getitem (Toy.mapper None)
      (PyInt (-1 + DatasetMapper_len (Toy.mapper None))).
Proof.
  split.
  - vm_compute. split; [discriminate | reflexivity].
  - apply (getitem_negative_index Toy.tensors (Toy.mapper None) (-1)).
    vm_compute. split; [discriminate | reflexivity].
Defined.

Lemma getitem_out_of_bounds_witness :
  (to_python_int (PyInt 2) < - DatasetMapper_len (Toy.mapper None) \/
   DatasetMapper_len (Toy.mapper None) <= to_python_int (PyInt 2)) /\
  DatasetMapper_getitem (Toy.mapper None) (PyInt 2) =
    Raise (IndexError "single positional indexer is out-of-bounds").
Proof.
  split.
  - right. vm_compute. discriminate.
  - apply (getitem_out_of_bounds Toy.tensors (Toy.mapper None) (PyInt 2)).
    right. vm_compute. discriminate.
Defined.

Lemma getitem_absolute_name_witness :
  0 <= to_python_int (PyInt 0)
    < DatasetMapper_len (Cases.mapper_over "images" Cases.absolute_table None) /\
  nth_error
    (dm_image_data_file (Cases.mapper_over "images" Cases.absolute_table None))
    (Z.to_nat (to_python_int (PyInt 0)))
    = Some ("/data/a.png"%string, 2%Q) /\
  PosixPath.startswith_sep (fst ("/data/a.png"%string, 2%Q)) = true /\
  exists label,
    DatasetMapper_getitem (Cases.mapper_over "images" Cases.absolute_table None)
      (PyInt 0)
    = Ok (dm_preprocessor (Cases.mapper_over "images" Cases.absolute_table None)
            (fst ("/data/a.png"%string, 2%Q)),
          label).
Proof.
  split; [vm_compute; split; [discriminate | reflexivity]|].
  split; [reflexivity|]. split; [reflexivity|].
  apply (getitem_absolute_name Toy.tensors
           (Cases.mapper_over "images" Cases.absolute_table None) (PyInt 0)
           ("/data/a.png"%string, 2%Q)).
  - vm_compute. split; [discriminate | reflexivity].
  - reflexivity.
  - reflexivity.
Defined.

Lemma getitem_root_trailing_slash_witness :
  PosixPath.is_empty (dm_root_dir (Toy.mapper None)) = false /\
  PosixPath.endswith_sep (dm_root_dir (Toy.mapper None)) = false /\
  DatasetMapper_getitem
    (Build_DatasetMapper Toy.tensors
       (dm_root_dir (Toy.mapper None) ++ String PosixPath.sep EmptyString)%string
       (dm_image_data_file (Toy.mapper None))
       (dm_preprocessor (Toy.mapper None))
       (dm_teacher_func (Toy.mapper None)))
    (PyInt 1)
  = DatasetMapper_getitem (Toy.mapper None) (PyInt 1).
Proof.
  split; [reflexivity|]. split; [reflexivity|].
  apply (getitem_root_trailing_slash Toy.tensors (Toy.mapper None) (PyInt 1));
    reflexivity.
Defined.

Lemma getitem_teacher_ignores_labels_witness :
  map fst Toy.table = map fst Cases.relabelled_table /\
  DatasetMapper_getitem
    (Cases.mapper_over "images" Toy.table (Some Cases.doubling_teacher)) (PyInt 1)
  = DatasetMapper_getitem
      (Cases.mapper_over "images" Cases.relabelled_table
         (Some Cases.doubling_teacher))
      (PyInt 1).
Proof.
  split; [reflexivity|].
  apply (getitem_teacher_ignores_labels Toy.tensors
           (Cases.mapper_over "images" Toy.table (Some Cases.doubling_teacher))
           (Cases.mapper_over "images" Cases.relabelled_table
              (Some Cases.doubling_teacher))
           (PyInt 1) Cases.doubling_teacher); reflexivity.
Defined.

Lemma mapper_of_file_witness :
  Cases.file_system "labels.csv"%string = Some Toy.table /\
  exists dm,
    DatasetMapper_init Cases.file_system "images" "labels.csv" Toy.preprocessor
      (Some None) = Ok dm /\
    DatasetMapper_len dm = Z.of_nat (List.length Toy.table) /\
    forall i row,
      nth_error Toy.table i = Some row ->
      DatasetMapper_getitem dm (PyInt (Z.of_nat i)) =
        Ok (Toy.preprocessor (PosixPath.join "images" (fst row)),
            match @None (Teacher Toy.tensors) with
            | Some teacher_func =>
                teacher_func (Toy.preprocessor (PosixPath.join "images" (fst row)))
            | None => snd row
            end).
Proof.
  split; [reflexivity|].
  apply (mapper_of_file Toy.tensors Cases.file_system "images" "labels.csv"
           Toy.preprocessor None Toy.table).
  reflexivity.
Defined.

Lemma train_no_epochs_witness :
  (-2 <= 0 /\
   exists st,
     train Cases.with_validation (Toy.kwargs (-2) None None) =
       Returned st (empty_log, empty_log) /\
     st_self st = set_epochs Cases.with_validation (-2) /\
     st_disk st = []) /\
  (0 <= 0 /\
   train Cases.with_validation (Cases.kwargs_rate 0 (-1 # 1)) =
     SetupRaised (set_epochs Cases.with_validation 0)
       (ValueError "Invalid learning rate")).
Proof.
  split; (split; [discriminate|]).
  - apply (train_no_epochs Toy.tensors Toy.framework Cases.with_validation
             (Toy.kwargs (-2) None None) (-2)
             Toy.squared_error Toy.squared_error);
      try reflexivity.
    discriminate.
  - apply (train_no_epochs Toy.tensors Toy.framework Cases.with_validation
             (Cases.kwargs_rate 0 (-1 # 1)) 0
             Toy.squared_error Toy.squared_error);
      reflexivity.
Defined.

Lemma returned_validation_log_witness :
  exists st logs,
    train Cases.training_only (Toy.kwargs 2 (Some [Toy.count_predictions]) None)
      = Returned st logs /\
    errors (snd logs) = [] /\ scores (snd logs) = scores (fst logs).
Proof.
  destruct (train Cases.training_only
              (Toy.kwargs 2 (Some [Toy.count_predictions]) None))
    as [p' e | p' e | st e | st logs] eqn:Hrun.
  - exfalso. apply (f_equal (@raised _ _)) in Hrun.
    vm_compute in Hrun. discriminate Hrun.
  - exfalso. apply (f_equal (@raised _ _)) in Hrun.
    vm_compute in Hrun. discriminate Hrun.
  - exfalso. apply (f_equal (@raised _ _)) in Hrun.
    vm_compute in Hrun. discriminate Hrun.
  - exists st, logs. split; [reflexivity|].
    apply (returned_validation_log Toy.tensors Toy.framework
             Cases.training_only
             (Toy.kwargs 2 (Some [Toy.count_predictions]) None) st logs Hrun).
Defined.

Lemma validation_batch_stops_train_witness :
  1 <= 3 /\
  load_batches Toy.framework (p_test_loader Cases.with_validation) 0 <> [] /\
  raised (train Cases.with_validation (Toy.kwargs 3 None None)) <> None /\
  written_files (train Cases.with_validation (Toy.kwargs 3 None None)) = [] /\
  forall st,
    loop_state (train Cases.with_validation (Toy.kwargs 3 None None)) = Some st ->
    st_validation_log st = empty_log.
Proof.
  split; [discriminate|]. split; [discriminate|].
  apply (validation_batch_stops_train Toy.tensors Toy.framework
           Cases.with_validation (Toy.kwargs 3 None None) 3);
    [reflexivity | discriminate | discriminate].
Defined.

Lemma returned_without_validation_batch_witness :
  exists st logs,
    train Cases.training_only (Toy.kwargs 2 None None) = Returned st logs /\
    forall e, In e (py_range 2) ->
              load_batches Toy.framework (p_test_loader Cases.training_only) e
              = [].
Proof.
  destruct (train Cases.training_only (Toy.kwargs 2 None None))
    as [p' e | p' e | st e | st logs] eqn:Hrun.
  - exfalso. apply (f_equal (@raised _ _)) in Hrun.
    vm_compute in Hrun. discriminate Hrun.
  - exfalso. apply (f_equal (@raised _ _)) in Hrun.
    vm_compute in Hrun. discriminate Hrun.
  - exfalso. apply (f_equal (@raised _ _)) in Hrun.
    vm_compute in Hrun. discriminate Hrun.
  - exists st, logs. split; [reflexivity|].
    apply (returned_without_validation_batch Toy.tensors Toy.framework
             Cases.training_only (Toy.kwargs 2 None None) 2 st logs);
      [reflexivity | exact Hrun].
Defined.

Lemma training_log_order_witness :
  exists st,
    loop_state (train Cases.with_validation (Toy.kwargs 2 None None)) = Some st /\
    StronglySorted Z.le (map e_epoch (errors (st_training_log st))) /\
    Forall (fun entry => e_step entry = 0) (errors (st_training_log st)).
Proof.
  destruct (loop_state (train Cases.with_validation (Toy.kwargs 2 None None)))
    as [st|] eqn:Hst.
  - exists st. split; [reflexivity|].
    apply (training_log_order Toy.tensors Toy.framework Cases.with_validation
             (Toy.kwargs 2 None None) st Hst).
  - exfalso. vm_compute in Hst. discriminate Hst.
Defined.

Lemma checkpoint_cadence_witness :
  exists st logs,
    train Cases.training_only (Toy.kwargs 7 None (Some (Cases.every 3)))
      = Returned st logs /\
    epochs_saved (st_disk st) =
      filter (fun e => e mod cc_epoch (Cases.every 3) =? 0) (py_range 7) /\
    (1 <= 7 -> cc_epoch (Cases.every 3) <> 0).
Proof.
  destruct (train Cases.training_only (Toy.kwargs 7 None (Some (Cases.every 3))))
    as [p' e | p' e | st e | st logs] eqn:Hrun.
  - exfalso. apply (f_equal (@raised _ _)) in Hrun.
    vm_compute in Hrun. discriminate Hrun.
  - exfalso. apply (f_equal (@raised _ _)) in Hrun.
    vm_compute in Hrun. discriminate Hrun.
  - exfalso. apply (f_equal (@raised _ _)) in Hrun.
    vm_compute in Hrun. discriminate Hrun.
  - exists st, logs. split; [reflexivity|].
    apply (checkpoint_cadence Toy.tensors Toy.framework Cases.training_only
             (Toy.kwargs 7 None (Some (Cases.every 3))) 7 (Cases.every 3)
             st logs);
      [reflexivity | reflexivity | exact Hrun].
Defined.

Lemma zero_interval_never_returns_witness :
  1 <= 2 /\
  cc_epoch (Cases.every 0) = 0 /\
  raised (train Cases.training_only (Toy.kwargs 2 None (Some (Cases.every 0))))
    <> None /\
  written_files
    (train Cases.training_only (Toy.kwargs 2 None (Some (Cases.every 0)))) = [].
Proof.
  split; [discriminate|]. split; [reflexivity|].
  apply (zero_interval_never_returns Toy.tensors Toy.framework
           Cases.training_only (Toy.kwargs 2 None (Some (Cases.every 0))) 2
           (Cases.every 0));
    [reflexivity | discriminate | reflexivity | reflexivity].
Defined.

Lemma checkpoint_of_empty_epoch_raises_witness :
  1 <= 2 /\
  load_batches Toy.framework (p_train_loader Cases.without_data) 0 = [] /\
  raised (train Cases.without_data (Toy.kwargs 2 None (Some (Cases.every 2))))
    <> None /\
  written_files
    (train Cases.without_data (Toy.kwargs 2 None (Some (Cases.every 2)))) = [].
Proof.
  split; [discriminate|]. split; [reflexivity|].
  apply (checkpoint_of_empty_epoch_raises Toy.tensors Toy.framework
           Cases.without_data (Toy.kwargs 2 None (Some (Cases.every 2))) 2
           (Cases.every 2));
    [reflexivity | discriminate | reflexivity | reflexivity].
Defined.

Lemma rate_after_epochs_witness :
  kw_lr_scheduler (Cases.kwargs_step_size 3 Cases.halving) = None /\
  exists st logs,
    train Cases.training_only (Cases.kwargs_step_size 3 Cases.halving)
      = Returned st logs /\
    o_lr (st_optimizer st) =
      Qmult (configured_lr (Cases.kwargs_step_size 3 Cases.halving))
        (match kw_step_size_func (Cases.kwargs_step_size 3 Cases.halving) with
         | Some step_size_func => step_size_func
         | None => fun _ => configured_lr (Cases.kwargs_step_size 3 Cases.halving)
         end (Z.max 0 3)).
Proof.
  split; [reflexivity|].
  destruct (train Cases.training_only (Cases.kwargs_step_size 3 Cases.halving))
    as [p' e | p' e | st e | st logs] eqn:Hrun.
  - exfalso. apply (f_equal (@raised _ _)) in Hrun.
    vm_compute in Hrun. discriminate Hrun.
  - exfalso. apply (f_equal (@raised _ _)) in Hrun.
    vm_compute in Hrun. discriminate Hrun.
  - exfalso. apply (f_equal (@raised _ _)) in Hrun.
    vm_compute in Hrun. discriminate Hrun.
  - exists st, logs. split; [reflexivity|].
    apply (rate_after_epochs Toy.tensors Toy.framework Cases.training_only
             (Cases.kwargs_step_size 3 Cases.halving) 3 st logs);
      [reflexivity | reflexivity | exact Hrun].
Defined.

Lemma train_leaves_eval_mode_witness :
  1 <= 1 /\
  m_training (p_model Cases.training_only) = true /\
  exists st logs,
    train Cases.training_only (Toy.kwargs 1 None None) = Returned st logs /\
    m_training (p_model (st_self st)) = false.
Proof.
  split; [discriminate|]. split; [reflexivity|].
  destruct (train Cases.training_only (Toy.kwargs 1 None None))
    as [p' e | p' e | st e | st logs] eqn:Hrun.
  - exfalso. apply (f_equal (@raised _ _)) in Hrun.
    vm_compute in Hrun. discriminate Hrun.
  - exfalso. apply (f_equal (@raised _ _)) in Hrun.
    vm_compute in Hrun. discriminate Hrun.
  - exfalso. apply (f_equal (@raised _ _)) in Hrun.
    vm_compute in Hrun. discriminate Hrun.
  - exists st, logs. split; [reflexivity|].
    apply (train_leaves_eval_mode Toy.tensors Toy.framework
             Cases.training_only (Toy.kwargs 1 None None) 1 st logs);
      [reflexivity | discriminate | exact Hrun].
Defined.

Lemma returned_log_sizes_witness :
  exists st logs,
    train Cases.training_only (Toy.kwargs 3 (Some [Toy.count_predictions]) None)
      = Returned st logs /\
    List.length (errors (fst logs)) =
      list_sum
        (map (fun e =>
                List.length
                  (load_batches Toy.framework
                     (p_train_loader Cases.training_only) e))
           (py_range 3)) /\
    map s_epoch (scores (fst logs)) =
      match kw_score_functions
              (Toy.kwargs 3 (Some [Toy.count_predictions]) None) with
      | Some _ => py_range 3
      | None => []
      end.
Proof.
  destruct (train Cases.training_only
              (Toy.kwargs 3 (Some [Toy.count_predictions]) None))
    as [p' e | p' e | st e | st logs] eqn:Hrun.
  - exfalso. apply (f_equal (@raised _ _)) in Hrun.
    vm_compute in Hrun. discriminate Hrun.
  - exfalso. apply (f_equal (@raised _ _)) in Hrun.
    vm_compute in Hrun. discriminate Hrun.
  - exfalso. apply (f_equal (@raised _ _)) in Hrun.
    vm_compute in Hrun. discriminate Hrun.
  - exists st, logs. split; [reflexivity|].
    apply (returned_log_sizes Toy.tensors Toy.framework Cases.training_only
             (Toy.kwargs 3 (Some [Toy.count_predictions]) None) 3 st logs);
      [reflexivity | exact Hrun].
Defined.

(** The sizes and the rate on these runs, computed. *)
Example returned_log_sizes_computed :
  option_map
    (fun st => (List.length (errors (st_training_log st)),
                map s_epoch (scores (st_training_log st)),
                Qred (o_lr (st_optimizer st))))
    (loop_state (train Cases.training_only
                   (@Build_TrainKwargs Toy.tensors Toy.framework
                      (Some 3) None None None (Some Cases.halving)
                      (Some Toy.squared_error) (Some Toy.squared_error)
                      (Some [Toy.count_predictions]) None)))
  = Some (6%nat, [0; 1; 2], (1 # 16000)%Q).
Proof. vm_compute. reflexivity. Qed.
